(** * Gridify: the Shopify image grid of [app.py]

    A shallow embedding of the four stages of [app.py] -- [clean_shopify_url],
    [fetch_shopify_products], [extract_images] and the grid loop of the UI
    block -- together with the few library routines they call
    ([str.strip], [str.startswith], [urllib.parse.urlsplit], [range],
    slicing, [dict.get]).

    Python strings are sequences of Unicode code points, Python integers
    are [Z], decoded JSON documents are the inductive type [json], and the
    Streamlit calls of the script are recorded as a trace of [event]s. *)

From Stdlib Require Import ZArith NArith List Bool Lia String Ascii SpecFloat.
Import ListNotations.

Local Open Scope Z_scope.

(* ================================================================== *)
(** ** Python strings *)
(* ================================================================== *)

(** A [str] is the list of its code points. *)
Definition char := N.
Definition str := list char.

(** The code points of an ASCII literal of the source. *)
Definition lit (s : string) : str :=
  List.map N_of_ascii (list_ascii_of_string s).

Definition ch (a : ascii) : char := N_of_ascii a.

Fixpoint str_eqb (a b : str) : bool :=
  match a, b with
  | [], [] => true
  | x :: a', y :: b' => N.eqb x y && str_eqb a' b'
  | _, _ => false
  end.

Definition py_len {A} (l : list A) : Z := Z.of_nat (List.length l).

(** [c in s] for a one-character [c]. *)
Definition contains (c : char) (s : str) : bool := existsb (N.eqb c) s.

(** [str.isspace] on one code point: the table of
    [_PyUnicode_IsWhitespace]. *)
Definition isspace (c : char) : bool :=
  ((9 <=? c) && (c <=? 13) || (28 <=? c) && (c <=? 32)
   || (c =? 133) || (c =? 160) || (c =? 5760)
   || (8192 <=? c) && (c <=? 8202)
   || (c =? 8232) || (c =? 8233) || (c =? 8239) || (c =? 8287)
   || (c =? 12288))%N.

Fixpoint drop_while (p : char -> bool) (s : str) : str :=
  match s with
  | [] => []
  | c :: s' => if p c then drop_while p s' else s
  end.

Fixpoint take_while (p : char -> bool) (s : str) : str :=
  match s with
  | [] => []
  | c :: s' => if p c then c :: take_while p s' else []
  end.

(** [s.lstrip(chars)] and [s.rstrip(chars)], the set of characters given
    as a predicate. *)
Definition lstrip_by (p : char -> bool) (s : str) : str := drop_while p s.
Definition rstrip_by (p : char -> bool) (s : str) : str :=
  rev (drop_while p (rev s)).

(** [s.strip()]: whitespace removed at both ends. *)
Definition strip (s : str) : str := rstrip_by isspace (lstrip_by isspace s).

(** [s.rstrip(chars)] for a literal [chars]. *)
Definition rstrip (chars : str) (s : str) : str :=
  rstrip_by (fun c => contains c chars) s.

Fixpoint startswith (s prefix : str) {struct prefix} : bool :=
  match prefix, s with
  | [], _ => true
  | p :: prefix', c :: s' => N.eqb p c && startswith s' prefix'
  | _ :: _, [] => false
  end.

(** [s.startswith((p1, p2, ...))]. *)
Definition startswith_any (s : str) (prefixes : list str) : bool :=
  existsb (startswith s) prefixes.

(** [s.endswith(suffix)]: the tail of [s] of the suffix's length is
    compared with it. *)
Definition endswith (s suffix : str) : bool :=
  (List.length suffix <=? List.length s)%nat
  && str_eqb (skipn (List.length s - List.length suffix) s) suffix.

(** Position of the first [c] in [s], counted from the head. *)
Fixpoint index_of (c : char) (s : str) : option nat :=
  match s with
  | [] => None
  | x :: s' =>
      if N.eqb x c then Some O
      else match index_of c s' with
           | Some k => Some (S k)
           | None => None
           end
  end.

(** [s.find(c, start)] for a one-character [c] and [start >= 0]:
    the lowest index at or after [start], or [-1]. *)
Definition find (s : str) (c : char) (start : nat) : Z :=
  match index_of c (skipn start s) with
  | Some k => Z.of_nat (start + k)
  | None => -1
  end.

(** [s.replace(c, "")]. *)
Definition remove_char (c : char) (s : str) : str :=
  filter (fun x => negb (N.eqb x c)) s.

(** [s[lo:hi]] on any sequence, with Python's treatment of negative and
    out-of-range bounds. *)
Definition clamp_index (len i : Z) : Z :=
  if i <? 0 then Z.max 0 (i + len) else Z.min i len.

Definition slice {A} (l : list A) (lo hi : Z) : list A :=
  let lo' := clamp_index (py_len l) lo in
  let hi' := clamp_index (py_len l) hi in
  firstn (Z.to_nat (hi' - lo')) (skipn (Z.to_nat lo') l).

(** [str.lower] on ASCII text. *)
Definition ascii_lower (c : char) : char :=
  if ((65 <=? c) && (c <=? 90))%N then (c + 32)%N else c.

Definition is_ascii_alpha (c : char) : bool :=
  ((65 <=? c) && (c <=? 90) || (97 <=? c) && (c <=? 122))%N.

Definition is_ascii_digit (c : char) : bool := ((48 <=? c) && (c <=? 57))%N.

Definition is_ascii (c : char) : bool := (c <=? 127)%N.

(** Decimal text of an integer, as [str(n)] prints it. *)
Fixpoint digits_fuel (fuel : nat) (n : N) (acc : str) : str :=
  match fuel with
  | O => acc
  | S fuel' =>
      let acc' := (48 + N.modulo n 10)%N :: acc in
      if (n <? 10)%N then acc' else digits_fuel fuel' (N.div n 10) acc'
  end.

Definition str_of_Z (n : Z) : str :=
  let d := digits_fuel (S (N.to_nat (N.log2 (Z.abs_N n)))) (Z.abs_N n) [] in
  if n <? 0 then ch "-"%char :: d else d.

(* ================================================================== *)
(** ** Exceptions and results *)
(* ================================================================== *)

(** The exception classes the script can meet.  [ValueError] stands
    for the class itself and for its subclasses that are not named
    here; [LocationParseError] is urllib3's, a [ValueError] that is no
    [RequestException]; [OtherError] is any class that is neither a
    [RequestException] nor a [ValueError], given by its name. *)
Inductive exc_class : Type :=
| HTTPError | ConnectionError | Timeout | OtherRequestException
| JSONDecodeError
| ValueError | LocationParseError
| AttributeError | TypeError | KeyError | IndexError
| ZeroDivisionError | RecursionError
| OtherError (name : str).

Record exc : Type := mk_exc { exc_kind : exc_class; exc_text : str }.

(** What a call does: it returns a value or raises. *)
Inductive result (A : Type) : Type :=
| Ok (a : A)
| Raise (e : exc).
Arguments Ok {A} a.
Arguments Raise {A} e.

(** One call after another: the first exception raised ends the run. *)
Definition and_then {A B} (r : result A) (k : A -> result B) : result B :=
  match r with
  | Ok a => k a
  | Raise e => Raise e
  end.

Declare Scope result_scope.
Delimit Scope result_scope with result.
Notation "x <~ r ;; k" := (and_then r (fun x => k))
  (at level 61, r at next level, right associativity) : result_scope.
Notation "' p <~ r ;; k" := (and_then r (fun x => let 'p := x in k))
  (at level 61, p pattern, r at next level, right associativity) : result_scope.

(* ================================================================== *)
(** ** Tables of [urllib.parse] *)
(* ================================================================== *)

(** [_WHATWG_C0_CONTROL_OR_SPACE]: the code points 0 to 32. *)
Definition c0_control_or_space (c : char) : bool := (c <=? 32)%N.

(** [_UNSAFE_URL_BYTES_TO_REMOVE]: tab, carriage return, line feed. *)
Definition unsafe_url_bytes : str := [9; 13; 10]%N.

(** [scheme_chars]: ASCII letters, digits and [+-.]. *)
Definition scheme_char (c : char) : bool :=
  is_ascii_alpha c || is_ascii_digit c || contains c (lit "+-.").

(** [_splitnetloc(url, start)]: the earliest of the delimiters [/?#] at
    or after [start] ends the netloc. *)
Definition splitnetloc (url : str) (start : nat) : str * str :=
  let delim :=
    fold_left
      (fun delim c =>
         let wdelim := find url c start in
         if 0 <=? wdelim then Z.min delim wdelim else delim)
      (lit "/?#") (py_len url) in
  (slice url (Z.of_nat start) delim, slice url delim (py_len url)).


(* ================================================================== *)
(** ** Decoded JSON documents *)
(* ================================================================== *)

(** The value [response.json()] builds: [None], [bool], [int], [float],
    [str], [list] and [dict] (its keys are strings; of two bindings of
    one key the earlier is the one that counts). *)
#[warnings="-register-all"]
Inductive json : Type :=
| JNull
| JBool (b : bool)
| JInt (n : Z)
| JFloat (f : spec_float)
| JStr (s : str)
| JList (items : list json)
| JDict (fields : list (str * json)).

(** The truth value of an object, as [if x:] takes it. *)
Definition truthy (v : json) : bool :=
  match v with
  | JNull => false
  | JBool b => b
  | JInt n => negb (n =? 0)
  | JFloat (S754_zero _) => false
  | JFloat _ => true
  | JStr s => match s with [] => false | _ => true end
  | JList l => match l with [] => false | _ => true end
  | JDict d => match d with [] => false | _ => true end
  end.

(** [type(v).__name__]. *)
Definition type_name (v : json) : str :=
  match v with
  | JNull => lit "NoneType"
  | JBool _ => lit "bool"
  | JInt _ => lit "int"
  | JFloat _ => lit "float"
  | JStr _ => lit "str"
  | JList _ => lit "list"
  | JDict _ => lit "dict"
  end.

Fixpoint lookup (key : str) (fields : list (str * json)) : option json :=
  match fields with
  | [] => None
  | (k, v) :: rest => if str_eqb k key then Some v else lookup key rest
  end.

(** The keys of a dict, each once, in the order of their first binding. *)
Fixpoint dict_keys (fields : list (str * json)) : list str :=
  match fields with
  | [] => []
  | (k, _) :: rest =>
      k :: filter (fun k' => negb (str_eqb k' k)) (dict_keys rest)
  end.

(** [v.get(key, default)]: only a dict has the method. *)
Definition py_get (v : json) (key : str) (default : json) : result json :=
  match v with
  | JDict fields =>
      match lookup key fields with
      | Some x => Ok x
      | None => Ok default
      end
  | _ => Raise (mk_exc AttributeError
                  (lit "'" ++ type_name v ++ lit "' object has no attribute 'get'"))
  end.

(** The items [for x in v] runs through. *)
Definition py_iter (v : json) : result (list json) :=
  match v with
  | JList l => Ok l
  | JStr s => Ok (List.map (fun c => JStr [c]) s)
  | JDict d => Ok (List.map JStr (dict_keys d))
  | _ => Raise (mk_exc TypeError
                  (lit "'" ++ type_name v ++ lit "' object is not iterable"))
  end.

(** [v[0]]. *)
Definition py_first (v : json) : result json :=
  match v with
  | JList (x :: _) => Ok x
  | JList [] => Raise (mk_exc IndexError (lit "list index out of range"))
  | JStr (c :: _) => Ok (JStr [c])
  | JStr [] => Raise (mk_exc IndexError (lit "string index out of range"))
  | JDict _ => Raise (mk_exc KeyError (lit "0"))
  | _ => Raise (mk_exc TypeError
                  (lit "'" ++ type_name v ++ lit "' object is not subscriptable"))
  end.

(** [len(v)]. *)
Definition py_len_of (v : json) : result Z :=
  match v with
  | JList l => Ok (py_len l)
  | JStr s => Ok (py_len s)
  | JDict d => Ok (py_len (dict_keys d))
  | _ => Raise (mk_exc TypeError
                  (lit "object of type '" ++ type_name v ++ lit "' has no len()"))
  end.

(** [range(start, stop, step)] for a step other than zero: its length
    as [compute_range_length] finds it, its items [start + k * step]. *)
Definition range_length (start stop step : Z) : Z :=
  if 0 <? step
  then (if start <? stop then (stop - start - 1) / step + 1 else 0)
  else (if stop <? start then (start - stop - 1) / (- step) + 1 else 0).

Definition py_range (start stop step : Z) : list Z :=
  List.map (fun k => start + Z.of_nat k * step)
           (seq 0 (Z.to_nat (range_length start stop step))).

(* ================================================================== *)
(** ** The endpoint and the page *)
(* ================================================================== *)

(** What [response.json()] does with the body: it returns the decoded
    value, it raises its [JSONDecodeError] on a text that is not JSON,
    or an exception of another class leaves it as it is raised (a
    plain [ValueError] on an integer literal over the digit limit, a
    [RecursionError] on a nesting too deep). *)
Inductive body_reading : Type :=
| Decoded (data : json)
| Undecodable (text : str)
| Unreadable (kind : exc_class) (text : str).

(** A response of the endpoint: its status, the text [raise_for_status]
    gives its [HTTPError], and the reading of its body. *)
Record response : Type := mk_response {
  status_code : Z;
  status_text : str;
  body : body_reading
}.

(** How [requests.get] fails before any response is there: with one
    of its own exceptions, or with an exception of another class that
    it lets through unwrapped (urllib3's [LocationParseError] on a host
    it cannot parse). *)
Inductive request_failure : Type :=
| NoConnection | TimedOut | OtherFailure
| Unwrapped (kind : exc_class).

Inductive get_outcome : Type :=
| Failed (why : request_failure) (text : str)
| Responded (r : response).

Definition failure_class (why : request_failure) : exc_class :=
  match why with
  | NoConnection => ConnectionError
  | TimedOut => Timeout
  | OtherFailure => OtherRequestException
  | Unwrapped kind => kind
  end.

(** The Streamlit calls that show something. *)
Inductive event : Type :=
| StSpinner (text : str)
| StError (text : str)
| StSuccess (text : str)
| StWarning (text : str)
| StSlider (label : str) (min_value max_value value : Z)
| StColumns (n : Z)
| StMarkdown (column : Z) (html : str).

(** A computation of the script: the calls it has shown so far and how
    it ends. *)
Definition ui (A : Type) : Type := (list event * result A)%type.

Definition ret {A} (a : A) : ui A := ([], Ok a).

Definition raise {A} (e : exc) : ui A := ([], Raise e).

Definition bind {A B} (m : ui A) (f : A -> ui B) : ui B :=
  match m with
  | (shown, Ok a) => let '(shown', r) := f a in (shown ++ shown', r)
  | (shown, Raise e) => (shown, Raise e)
  end.

Definition show (e : event) : ui unit := ([e], Ok tt).

Definition lift {A} (r : result A) : ui A := ([], r).

(** [try: body / except ...: handler]: the handler answers [None] for an
    exception no clause catches. *)
Definition try_except {A} (body : ui A) (handler : exc -> option (ui A)) : ui A :=
  match body with
  | (shown, Ok a) => (shown, Ok a)
  | (shown, Raise e) =>
      match handler e with
      | Some h => let '(shown', r) := h in (shown ++ shown', r)
      | None => (shown, Raise e)
      end
  end.

Declare Scope ui_scope.
Delimit Scope ui_scope with ui.
Notation "x <- m ;; k" := (bind m (fun x => k))
  (at level 61, m at next level, right associativity) : ui_scope.
Notation "m ;;; k" := (bind m (fun _ => k))
  (at level 61, right associativity) : ui_scope.

(** [for x in items: body]. *)
Fixpoint for_each {A} (items : list A) (body : A -> ui unit) : ui unit :=
  match items with
  | [] => ret tt
  | x :: rest => bind (body x) (fun _ => for_each rest body)
  end.

(** [enumerate(items)]. *)
Definition enumerate {A} (items : list A) : list (Z * A) :=
  combine (List.map Z.of_nat (seq 0 (List.length items))) items.

(** An entry of [images]: [(src, title, product_url)]. *)
Definition image_entry : Type := (json * json * str)%type.

Definition dq : str := [34%N].

Module App.

Section Gridify.

Local Open Scope ui_scope.
Local Open Scope result_scope.

(** [unicodedata.normalize('NFKC', s)]: the Unicode tables are not part
    of the program. *)
Variable nfkc : str -> str.

(** The validation of a netloc that holds both brackets
    ([_check_bracketed_host], [_check_bracketed_netloc]): it depends on
    the interpreter's version (there is none before 3.11.4).
    [Some text] is the text of the [ValueError] it raises. *)
Variable check_bracketed_netloc : str -> option str.

(** [str(v)] for a value that is not a string. *)
Variable repr_nonstr : json -> str.

(** Whether the error of [response.json()] is a [RequestException]
    (requests 2.27 and later) besides being a [ValueError]. *)
Variable json_error_is_request_exception : bool.

(** The endpoint: what [requests.get(url, params={'limit': limit},
    timeout=10)] meets. *)
Variable requests_get : str -> Z -> get_outcome.

(** [f"{v}"]. *)
Definition format_value (v : json) : str :=
  match v with
  | JStr s => s
  | _ => repr_nonstr v
  end.

(** [isinstance(e, requests.exceptions.RequestException)]. *)
Definition is_RequestException (e : exc) : bool :=
  match exc_kind e with
  | HTTPError | ConnectionError | Timeout | OtherRequestException => true
  | JSONDecodeError => json_error_is_request_exception
  | _ => false
  end.

(** [isinstance(e, ValueError)]. *)
Definition is_ValueError (e : exc) : bool :=
  match exc_kind e with
  | ValueError | LocationParseError | JSONDecodeError => true
  | _ => false
  end.

(** [response.raise_for_status()]. *)
Definition raise_for_status (r : response) : result unit :=
  if ((400 <=? status_code r) && (status_code r <? 500))
     || ((500 <=? status_code r) && (status_code r <? 600))
  then Raise (mk_exc HTTPError (status_text r))
  else Ok tt.

(** [response.json()]. *)
Definition response_json (r : response) : result json :=
  match body r with
  | Decoded data => Ok data
  | Undecodable text => Raise (mk_exc JSONDecodeError text)
  | Unreadable kind text => Raise (mk_exc kind text)
  end.

(* ------------------------------------------------------------------ *)
(** *** [urlsplit] and [urlparse] *)
(* ------------------------------------------------------------------ *)
(** [_checknetloc(netloc)]: [Some text] when it raises [ValueError]. *)
Definition checknetloc (netloc : str) : option str :=
  if match netloc with [] => true | _ => false end || forallb is_ascii netloc
  then None
  else
    let n := remove_char (ch "@") netloc in
    let n := remove_char (ch ":") n in
    let n := remove_char (ch "#") n in
    let n := remove_char (ch "?") n in
    let netloc2 := nfkc n in
    if str_eqb n netloc2 then None
    else if existsb (fun c => contains c netloc2) (lit "/?#@:")
         then Some (lit "netloc '" ++ netloc
                      ++ lit "' contains invalid characters under NFKC normalization")
         else None.

(** The two tests on brackets that follow [_splitnetloc]; [Some e] is
    the exception raised. *)
Definition bracket_fault (netloc : str) : option exc :=
  let lb := contains (ch "[") netloc in
  let rb := contains (ch "]") netloc in
  if (lb && negb rb) || (rb && negb lb)
  then Some (mk_exc ValueError (lit "Invalid IPv6 URL"))
  else if lb && rb
       then match check_bracketed_netloc netloc with
            | Some text => Some (mk_exc ValueError text)
            | None => None
            end
       else None.

(** [urlsplit(url)] with the default (empty) scheme: the scheme, the
    netloc and what is left of the url after them.  The split of the
    rest into path, query and fragment is left out: it changes neither
    of the two fields nor whether the call raises. *)
Definition urlsplit (url : str) : result (str * str * str) :=
  let url := lstrip_by c0_control_or_space url in
  let url := fold_left (fun u b => remove_char b u) unsafe_url_bytes url in
  let i := find url (ch ":") 0 in
  let '(scheme, url) :=
    if (0 <? i)
       && match url with c :: _ => is_ascii c && is_ascii_alpha c | [] => false end
       && forallb scheme_char (slice url 0 i)
    then (List.map ascii_lower (slice url 0 i), slice url (i + 1) (py_len url))
    else ([], url) in
  let '(netloc, url, fault) :=
    if str_eqb (slice url 0 2) (lit "//")
    then let '(netloc, url) := splitnetloc url 2 in
         (netloc, url, bracket_fault netloc)
    else ([], url, None) in
  match fault with
  | Some e => Raise e
  | None =>
      match checknetloc netloc with
      | Some text => Raise (mk_exc ValueError text)
      | None => Ok (scheme, netloc, url)
      end
  end.

(** Why [urlsplit] raises on the netloc it has split off, if it does:
    its checks in their order. *)
Definition netloc_fault (netloc : str) : option exc :=
  match bracket_fault netloc with
  | Some e => Some e
  | None =>
      match checknetloc netloc with
      | Some text => Some (mk_exc ValueError text)
      | None => None
      end
  end.

(** [parsed = urlparse(url)]: its [scheme] and [netloc] are those of
    [urlsplit]. *)
Definition urlparse (url : str) : result (str * str) :=
  '(scheme, netloc, _) <~ urlsplit url ;;
  Ok (scheme, netloc).


(* ------------------------------------------------------------------ *)
(** *** [fetch_shopify_products] *)
(* ------------------------------------------------------------------ *)

Definition api_suffix : str := lit "products.json?limit=1000".

(** The test of line 16, before its [not]. *)
Definition has_api_suffix (base_url : str) : bool :=
  endswith (rstrip (lit "/") base_url) api_suffix.

Definition api_url_of (base_url : str) : str :=
  let clean_url := rstrip (lit "/") base_url in
  if negb (endswith clean_url api_suffix)
  then clean_url ++ lit "/products.json?limit=1000"
  else clean_url.

(** The two [except] clauses, in their order. *)
Definition fetch_handler (e : exc) : option (ui json) :=
  if is_RequestException e
  then Some (show (StError (lit "Error fetching data: " ++ exc_text e)) ;;;
             ret (JList []))
  else if is_ValueError e
  then Some (show (StError (lit "Invalid JSON response. Is this a Shopify site?")) ;;;
             ret (JList []))
  else None.

Definition fetch_shopify_products (base_url : str) : ui json :=
  let api_url := api_url_of base_url in
  try_except
    (lift
       match requests_get api_url 250 with
       | Failed why text => Raise (mk_exc (failure_class why) text)
       | Responded response =>
           checked <~ raise_for_status response ;;
           data <~ response_json response ;;
           py_get data (lit "products") (JList [])
       end)
    fetch_handler.

(* ------------------------------------------------------------------ *)
(** *** [extract_images] *)
(* ------------------------------------------------------------------ *)

(** One turn of the loop: the entry the product appends, if any. *)
Definition product_entry (base_url : str) (product : json)
  : result (option image_entry) :=
  title <~ py_get product (lit "title") (JStr (lit "Unknown Product")) ;;
  handle <~ py_get product (lit "handle") (JStr []) ;;
  let product_url := base_url ++ lit "/products/" ++ format_value handle in
  product_images <~ py_get product (lit "images") (JList []) ;;
  if truthy product_images
  then
    first_img <~ py_first product_images ;;
    src <~ py_get first_img (lit "src") JNull ;;
    if truthy src
    then Ok (Some (src, title, product_url))
    else Ok None
  else Ok None.

(** The loop over the products, [images] being what is appended so far. *)
Fixpoint extract_loop (base_url : str) (products : list json)
  (images : list image_entry) : result (list image_entry) :=
  match products with
  | [] => Ok images
  | product :: rest =>
      match product_entry base_url product with
      | Raise e => Raise e
      | Ok (Some entry) => extract_loop base_url rest (images ++ [entry])
      | Ok None => extract_loop base_url rest images
      end
  end.

Definition extract_images (products : json) (base_url : str)
  : result (list image_entry) :=
  items <~ py_iter products ;;
  extract_loop base_url items [].

(* ------------------------------------------------------------------ *)
(** *** [clean_shopify_url] *)
(* ------------------------------------------------------------------ *)

(** The text after [url.strip()] and the scheme test, handed to
    [urlparse]. *)
Definition with_scheme (url : str) : str :=
  let url := strip url in
  if negb (startswith_any url [lit "http://"; lit "https://"])
  then lit "https://" ++ url
  else url.

Definition clean_shopify_url (url : str) : result str :=
  '(scheme, netloc) <~ urlparse (with_scheme url) ;;
  Ok (scheme ++ lit "://" ++ netloc).


(* ------------------------------------------------------------------ *)
(** *** The UI block *)
(* ------------------------------------------------------------------ *)

(** The slices the grid loop takes: [image_data[i:i+cols_count]] for
    [i] in [range(0, len(image_data), cols_count)]. *)
Definition batches {A} (image_data : list A) (cols_count : Z) : list (list A) :=
  List.map (fun i => slice image_data i (i + cols_count))
           (py_range 0 (py_len image_data) cols_count).

(** The markup of lines 103 and 107. *)
Definition title_markup (title : json) : str :=
  lit "<div style=" ++ dq
  ++ lit "text-align:center; margin:0; padding:0; font-size:0.9rem; overflow:hidden; text-overflow:ellipsis; white-space:nowrap;"
  ++ dq ++ lit " title=" ++ dq ++ format_value title ++ dq ++ lit ">"
  ++ format_value title ++ lit "</div>".

Definition image_markup (img_url : json) (product_url : str) : str :=
  lit "<a href=" ++ dq ++ product_url ++ dq ++ lit " target=" ++ dq
  ++ lit "_blank" ++ dq ++ lit "><img src=" ++ dq ++ format_value img_url ++ dq
  ++ lit " style=" ++ dq ++ lit "width:100%; border-radius:6px;" ++ dq
  ++ lit "></a>".

Definition render_cell (cell : Z * image_entry) : ui unit :=
  let '(idx, (img_url, title, product_url)) := cell in
  show (StMarkdown idx (title_markup title)) ;;;
  show (StMarkdown idx (image_markup img_url product_url)).

Definition render_row (cols_count : Z) (batch : list image_entry) : ui unit :=
  show (StColumns cols_count) ;;;
  for_each (enumerate batch) render_cell.

(** [math.ceil(len(image_data) / cols_count)]: the quotient is only
    kept in [rows]; the division raises on zero. *)
Definition rows_of (image_data : list image_entry) (cols_count : Z) : result Z :=
  if cols_count =? 0
  then Raise (mk_exc ZeroDivisionError (lit "division by zero"))
  else Ok (- ((- py_len image_data) / cols_count)).

(** The body of [if url_input:] (lines 76 to 112); [cols_count] is the
    value the slider holds. *)
Definition main_block (url_input : str) (cols_count : Z) : ui unit :=
  if truthy (JStr url_input)
  then
    cleaned_url <- lift (clean_shopify_url url_input) ;;
    show (StSpinner (lit "Fetching inventory from " ++ cleaned_url ++ lit " ...")) ;;;
    products <- fetch_shopify_products cleaned_url ;;
    if truthy products
    then
      image_data <- lift (extract_images products cleaned_url) ;;
      n <- lift (py_len_of products) ;;
      show (StSuccess (lit "Found " ++ str_of_Z n ++ lit " products.")) ;;;
      show (StSlider (lit "Grid Columns") 2 8 5) ;;;
      rows <- lift (rows_of image_data cols_count) ;;
      for_each (batches image_data cols_count) (render_row cols_count)
    else
      if truthy (JStr url_input)
      then show (StWarning (lit "No products found. Ensure the URL is correct and the site is built on Shopify."))
      else ret tt
  else ret tt.

End Gridify.

End App.

Import App.

(* ================================================================== *)
(** ** The normalizer, read from its description *)
(* ================================================================== *)

(** The host of the text after [://]: tab, carriage return and line
    feed are dropped, and the host ends before the first [/], [?] or
    [#]. *)
Definition host_char (c : char) : bool := negb (contains c (lit "/?#")).

Definition host_text (rest : str) : str :=
  take_while host_char
             (filter (fun c => negb (contains c unsafe_url_bytes)) rest).

(** Scheme and host of a user's text: surrounding whitespace trimmed,
    [https] taken when the text starts with neither [http://] nor
    [https://]. *)
Definition scheme_and_host (url : str) : str * str :=
  let url := strip url in
  if startswith url (lit "http://") then (lit "http", host_text (skipn 7 url))
  else if startswith url (lit "https://") then (lit "https", host_text (skipn 8 url))
  else (lit "https", host_text url).

(* ================================================================== *)
(** ** The extractor, read from its description *)
(* ================================================================== *)

(** A product record as the extractor can take it: a dict whose
    [images], when there and not empty, is a list that starts with an
    image record. *)
Definition is_product_record (product : json) : bool :=
  match product with
  | JDict fields =>
      match lookup (lit "images") fields with
      | None => true
      | Some (JList (JDict _ :: _)) => true
      | Some v => negb (truthy v)
      end
  | _ => false
  end.

(** The [src] of the first image, when the product has one that can be
    used. *)
Definition first_image_src (fields : list (str * json)) : option json :=
  match lookup (lit "images") fields with
  | Some (JList (JDict image :: _)) =>
      match lookup (lit "src") image with
      | Some src => if truthy src then Some src else None
      | None => None
      end
  | _ => None
  end.

Definition title_of (fields : list (str * json)) : json :=
  match lookup (lit "title") fields with
  | Some title => title
  | None => JStr (lit "Unknown Product")
  end.

Module Reading.

Section Described.

Variable repr_nonstr : json -> str.

(** The handle as it stands in the product URL (empty when absent). *)
Definition handle_text (fields : list (str * json)) : str :=
  match lookup (lit "handle") fields with
  | Some handle => format_value repr_nonstr handle
  | None => []
  end.

(** The entries one product contributes: one at most. *)
Definition described_entry (origin : str) (product : json) : list image_entry :=
  match product with
  | JDict fields =>
      match first_image_src fields with
      | Some src =>
          [(src, title_of fields, origin ++ lit "/products/" ++ handle_text fields)]
      | None => []
      end
  | _ => []
  end.

(** What one cell and one row of the grid show. *)
Definition cell_events (cell : Z * image_entry) : list event :=
  let '(idx, (img_url, title, product_url)) := cell in
  [StMarkdown idx (title_markup repr_nonstr title);
   StMarkdown idx (image_markup repr_nonstr img_url product_url)].

Definition row_events (cols_count : Z) (batch : list image_entry) : list event :=
  StColumns cols_count :: flat_map cell_events (enumerate batch).

End Described.

End Reading.

Import Reading.

(* ================================================================== *)
(** ** Measures used in the proofs *)
(* ================================================================== *)

(** Position of the first [c] in [t], or the length of [t] when there
    is none. *)
Definition index_or_len (c : char) (t : str) : nat :=
  match index_of c t with Some k => k | None => List.length t end.

(** The number of batches: [len] over [cols_count], rounded up. *)
Definition batch_count (len cols_count : nat) : nat :=
  Z.to_nat (range_length 0 (Z.of_nat len) (Z.of_nat cols_count)).

(** Whether a call returns. *)
Definition returns {A} (r : result A) : bool :=
  match r with Ok _ => true | Raise _ => false end.

Definition is_dict (v : json) : bool :=
  match v with JDict _ => true | _ => false end.

Definition is_list (v : json) : bool :=
  match v with JList _ => true | _ => false end.

(** An exception neither [except] clause of the fetcher catches. *)
Definition uncaught (json_error_is_request_exception : bool) (e : exc) : bool :=
  negb (is_RequestException json_error_is_request_exception e)
  && negb (is_ValueError e).

(** An exception the second [except] clause of the fetcher gets: a
    [ValueError] that is no [RequestException]. *)
Definition second_clause_only (json_error_is_request_exception : bool)
  (e : exc) : bool :=
  negb (is_RequestException json_error_is_request_exception e)
  && is_ValueError e.

(** An entry with an image to show and a link under the origin's
    [/products/]. *)
Definition entry_ok (origin : str) (entry : image_entry) : bool :=
  let '(src, _, product_url) := entry in
  truthy src && startswith product_url (origin ++ lit "/products/").

(** The markup of the cells a trace shows, in its order. *)
Definition markdown_html (shown : list event) : list str :=
  flat_map (fun ev => match ev with StMarkdown _ html => [html] | _ => [] end)
           shown.

(** The two pieces of markup of one entry. *)
Definition entry_html (repr_nonstr : json -> str) (entry : image_entry)
  : list str :=
  let '(img_url, title, product_url) := entry in
  [title_markup repr_nonstr title;
   image_markup repr_nonstr img_url product_url].

(** The columns a trace writes into lie within the row. *)
Definition within_row (cols_count : Z) (ev : event) : bool :=
  match ev with
  | StMarkdown idx _ => (0 <=? idx) && (idx <? cols_count)
  | StColumns n => n =? cols_count
  | _ => false
  end.

(* ================================================================== *)
(** ** Sample surroundings *)
(* ================================================================== *)

(** An interpreter before 3.11.4, on text that NFKC leaves alone. *)
Definition no_normalization (s : str) : str := s.
Definition no_bracket_check (netloc : str) : option str := None.

(** A stand-in for [str] on values that are not strings. *)
Definition sample_repr (v : json) : str :=
  match v with
  | JNull => lit "None"
  | JBool true => lit "True"
  | JBool false => lit "False"
  | JInt n => str_of_Z n
  | _ => lit "..."
  end.

(** An endpoint that answers every request with the same response. *)
Definition always (r : response) (url : str) (limit : Z) : get_outcome :=
  Responded r.

Definition shirt : json :=
  JDict [(lit "title", JStr (lit "Shirt"));
         (lit "handle", JStr (lit "shirt"));
         (lit "images",
          JList [JDict [(lit "src", JStr (lit "https://cdn.example/a.png"))];
                 JDict [(lit "src", JStr (lit "https://cdn.example/b.png"))]])].

(** A product with neither title nor images. *)
Definition bare_product : json := JDict [(lit "handle", JStr (lit "bare"))].

(** A product with an image and no title. *)
Definition untitled : json :=
  JDict [(lit "handle", JStr (lit "mug"));
         (lit "images",
          JList [JDict [(lit "src", JStr (lit "https://cdn.example/mug.png"))]])].

(** A product with an image and no handle. *)
Definition poster_fields : list (str * json) :=
  [(lit "title", JStr (lit "Poster"));
   (lit "images",
    JList [JDict [(lit "src", JStr (lit "https://cdn.example/poster.png"))]])].

(** An endpoint that never answers in time. *)
Definition times_out (url : str) (limit : Z) : get_outcome :=
  Failed TimedOut (lit "Read timed out.").

(** An endpoint whose host urllib3 cannot parse. *)
Definition cannot_parse_host (url : str) (limit : Z) : get_outcome :=
  Failed (Unwrapped LocationParseError) (lit "Failed to parse: a..b").

Definition catalog_of (products : list json) : response :=
  mk_response 200 [] (Decoded (JDict [(lit "products", JList products)])).

(* ================================================================== *)
(** ** General facts on strings and slices *)
(* ================================================================== *)

Lemma str_eqb_eq (a b : str) : str_eqb a b = true <-> a = b.
Proof.
  revert b; induction a as [|x a IH]; intros [|y b]; simpl; split;
    try congruence; try reflexivity.
  - intros H. apply andb_true_iff in H as [Hx Hab].
    apply N.eqb_eq in Hx. apply IH in Hab. congruence.
  - intros H. injection H as -> ->.
    rewrite N.eqb_refl. simpl. apply IH. reflexivity.
Qed.

Lemma str_eqb_refl (a : str) : str_eqb a a = true.
Proof. apply str_eqb_eq. reflexivity. Qed.

Lemma startswith_split (s prefix : str) :
  startswith s prefix = true -> s = prefix ++ skipn (List.length prefix) s.
Proof.
  revert s; induction prefix as [|p prefix IH]; intros s H; simpl in *.
  - reflexivity.
  - destruct s as [|c s]; [discriminate|].
    apply andb_true_iff in H as [Hp Hs]. apply N.eqb_eq in Hp. subst c.
    f_equal. apply IH. exact Hs.
Qed.

Lemma startswith_app (prefix rest : str) : startswith (prefix ++ rest) prefix = true.
Proof.
  induction prefix as [|p prefix IH]; simpl; [reflexivity|].
  rewrite N.eqb_refl. exact IH.
Qed.

Lemma take_drop_while (p : char -> bool) (s : str) :
  take_while p s ++ drop_while p s = s.
Proof.
  induction s as [|c s IH]; simpl; [reflexivity|].
  destruct (p c); simpl; [rewrite IH|]; reflexivity.
Qed.

Lemma take_while_all (p : char -> bool) (s : str) :
  forallb p s = true -> take_while p s = s.
Proof.
  induction s as [|c s IH]; simpl; [reflexivity|].
  intros H. apply andb_true_iff in H as [Hc Hs]. rewrite Hc, IH; auto.
Qed.

Lemma take_while_forallb (p : char -> bool) (s : str) :
  forallb p (take_while p s) = true.
Proof.
  induction s as [|c s IH]; simpl; [reflexivity|].
  destruct (p c) eqn:E; simpl; [rewrite E, IH|]; reflexivity.
Qed.


Lemma firstn_take_while (p : char -> bool) (s : str) :
  firstn (List.length (take_while p s)) s = take_while p s.
Proof.
  induction s as [|c s IH]; simpl; [reflexivity|].
  destruct (p c); simpl; [rewrite IH|]; reflexivity.
Qed.


Lemma drop_while_incl (p : char -> bool) (s : str) (c : char) :
  In c (drop_while p s) -> In c s.
Proof.
  induction s as [|x s IH]; simpl; [tauto|].
  destruct (p x); simpl; auto.
Qed.

Lemma rstrip_by_incl (p : char -> bool) (s : str) (c : char) :
  In c (rstrip_by p s) -> In c s.
Proof.
  unfold rstrip_by. intros H. apply in_rev in H.
  apply drop_while_incl in H. apply in_rev in H. exact H.
Qed.

(** Stripping at the right leaves a text alone when its last character
    stays. *)
Lemma rstrip_by_last (p : char -> bool) (s : str) (c : char) :
  p c = false -> rstrip_by p (s ++ [c]) = s ++ [c].
Proof.
  intros H. unfold rstrip_by. rewrite rev_app_distr. simpl.
  rewrite H. simpl. rewrite rev_involutive. reflexivity.
Qed.



Lemma py_len_nonneg {A} (l : list A) : 0 <= py_len l.
Proof. unfold py_len. lia. Qed.

Lemma slice_within {A} (l : list A) (lo hi : Z) :
  0 <= lo <= hi -> hi <= py_len l ->
  slice l lo hi = firstn (Z.to_nat (hi - lo)) (skipn (Z.to_nat lo) l).
Proof.
  intros H1 H2. unfold slice, clamp_index.
  destruct (Z.ltb_spec lo 0); [lia|]. destruct (Z.ltb_spec hi 0); [lia|].
  rewrite !Z.min_l by lia. reflexivity.
Qed.

Lemma slice_tail {A} (l : list A) (lo : Z) :
  0 <= lo <= py_len l -> slice l lo (py_len l) = skipn (Z.to_nat lo) l.
Proof.
  intros H. rewrite slice_within by lia.
  apply firstn_all2. rewrite length_skipn. unfold py_len in *. lia.
Qed.

Lemma endswith_incl (s suffix : str) (c : char) :
  endswith s suffix = true -> In c suffix -> In c s.
Proof.
  unfold endswith. intros H Hc. apply andb_true_iff in H as [_ H].
  apply str_eqb_eq in H. rewrite <- H in Hc.
  rewrite <- (firstn_skipn (List.length s - List.length suffix) s).
  apply in_or_app. right. exact Hc.
Qed.

(* ================================================================== *)
(** ** Facts on [urlsplit] *)
(* ================================================================== *)

Lemma index_of_bound (c : char) (t : str) (k : nat) :
  index_of c t = Some k -> (k < List.length t)%nat.
Proof.
  revert k; induction t as [|x t IH]; simpl; intros k H; [discriminate|].
  destruct (N.eqb x c).
  - injection H as <-. lia.
  - destruct (index_of c t) as [j|]; [|discriminate].
    injection H as <-. specialize (IH j eq_refl). lia.
Qed.


Lemma host_char_eq (x : char) :
  host_char x = negb (N.eqb x 47 || N.eqb x 63 || N.eqb x 35).
Proof.
  unfold host_char, contains. change (lit "/?#") with [47; 63; 35]%N.
  cbn [existsb]. rewrite orb_false_r, orb_assoc. reflexivity.
Qed.

(** The netloc ends at the first of the three delimiters. *)
Lemma take_while_delims (t : str) :
  List.length (take_while host_char t)
  = Nat.min (index_or_len 47%N t)
            (Nat.min (index_or_len 63%N t) (index_or_len 35%N t)).
Proof.
  induction t as [|x t IH]; [reflexivity|].
  unfold index_or_len in *. cbn [take_while index_of].
  rewrite host_char_eq.
  destruct (N.eqb x 47), (N.eqb x 63), (N.eqb x 35); cbn [orb negb List.length];
    try reflexivity; try lia.
  rewrite IH.
  destruct (index_of 47%N t), (index_of 63%N t), (index_of 35%N t);
    cbn [List.length]; lia.
Qed.

Lemma skipn_take_while (p : char -> bool) (s : str) :
  skipn (List.length (take_while p s)) s = drop_while p s.
Proof.
  induction s as [|c s IH]; simpl; [reflexivity|].
  destruct (p c); simpl; [rewrite IH|]; reflexivity.
Qed.

Lemma splitnetloc_after_slashes (a b : char) (t : str) :
  splitnetloc (a :: b :: t) 2
  = (take_while host_char t, drop_while host_char t).
Proof.
  set (p := host_char). unfold splitnetloc.
  match goal with
  | |- context [fold_left ?f ?l ?i] =>
      assert (D : fold_left f l i
                  = Z.of_nat (2 + List.length (take_while p t)))
  end.
  { unfold p. rewrite take_while_delims.
    change (lit "/?#") with [47; 63; 35]%N. cbn [fold_left].
    unfold find. cbn [skipn]. unfold index_or_len, py_len. cbn [List.length].
    pose proof (index_of_bound 47%N t) as B1.
    pose proof (index_of_bound 63%N t) as B2.
    pose proof (index_of_bound 35%N t) as B3.
    destruct (index_of 47%N t) as [k1|]; [specialize (B1 _ eq_refl)|clear B1];
    destruct (index_of 63%N t) as [k2|]; [specialize (B2 _ eq_refl)|clear B2| |];
    destruct (index_of 35%N t) as [k3|]; try specialize (B3 _ eq_refl);
    repeat match goal with
           | |- context [0 <=? ?z] => destruct (Z.leb_spec 0 z); try lia
           end. }
  rewrite D. f_equal.
  - rewrite slice_within.
    + replace (Z.to_nat (Z.of_nat (2 + List.length (take_while p t)) - Z.of_nat 2))
        with (List.length (take_while p t)) by lia.
      cbn [Z.to_nat Z.of_nat skipn Pos.to_nat Pos.iter_op Nat.add].
      apply firstn_take_while.
    + lia.
    + unfold py_len. cbn [List.length].
      pose proof (f_equal (@List.length _) (take_drop_while p t)) as L.
      rewrite length_app in L. lia.
  - rewrite slice_tail.
    + rewrite Nat2Z.id. cbn [Nat.add skipn]. apply skipn_take_while.
    + unfold py_len. cbn [List.length].
      pose proof (f_equal (@List.length _) (take_drop_while p t)) as L.
      rewrite length_app in L. lia.
Qed.

Lemma remove_unsafe_filter (u : str) :
  fold_left (fun u b => remove_char b u) unsafe_url_bytes u
  = filter (fun c => negb (contains c unsafe_url_bytes)) u.
Proof.
  unfold unsafe_url_bytes, remove_char, contains. cbn [fold_left existsb].
  induction u as [|x u IH]; [reflexivity|].
  cbn [filter].
  destruct (N.eqb x 9); cbn [negb orb filter]; [exact IH|].
  destruct (N.eqb x 13); cbn [negb orb filter]; [exact IH|].
  destruct (N.eqb x 10); cbn [negb orb filter]; [exact IH|].
  rewrite IH. reflexivity.
Qed.

Lemma filter_app_lit (p : char -> bool) (a b : str) :
  forallb p a = true -> filter p (a ++ b) = a ++ filter p b.
Proof.
  intros H. rewrite filter_app. f_equal.
  induction a as [|x a IH]; [reflexivity|].
  simpl in *. apply andb_true_iff in H as [Hx Ha]. rewrite Hx, IH; auto.
Qed.

Lemma py_len_app {A} (a b : list A) : py_len (a ++ b) = py_len a + py_len b.
Proof. unfold py_len. rewrite length_app. lia. Qed.

Lemma slice_head_app {A} (a b : list A) (n : Z) :
  n = py_len a -> slice (a ++ b) 0 n = a.
Proof.
  intros ->. rewrite slice_within.
  - rewrite Z.sub_0_r. unfold py_len. rewrite Nat2Z.id. cbn [Z.to_nat skipn].
    rewrite firstn_app, Nat.sub_diag, firstn_all. cbn [firstn].
    apply app_nil_r.
  - pose proof (py_len_nonneg a). lia.
  - rewrite py_len_app. pose proof (py_len_nonneg b). lia.
Qed.

Lemma slice_tail_app {A} (a b : list A) (n : Z) :
  n = py_len a -> slice (a ++ b) n (py_len (a ++ b)) = b.
Proof.
  intros ->. rewrite slice_tail.
  - unfold py_len. rewrite Nat2Z.id, skipn_app, Nat.sub_diag, skipn_all.
    reflexivity.
  - rewrite py_len_app. pose proof (py_len_nonneg a).
    pose proof (py_len_nonneg b). lia.
Qed.

(** Facts that hold by computation for each of the two schemes. *)
Ltac by_scheme Hs := destruct Hs; subst; reflexivity.

Section Normalizer.

Variable nfkc : str -> str.
Variable check_bracketed_netloc : str -> option str.

Local Abbreviation urlsplit := (urlsplit nfkc check_bracketed_netloc).
Local Abbreviation netloc_fault := (netloc_fault nfkc check_bracketed_netloc).
Local Abbreviation clean_shopify_url := (clean_shopify_url nfkc check_bracketed_netloc).

(** What [urlsplit] does with a text that starts with one of the two
    schemes. *)
Lemma urlsplit_scheme (scheme r : str) :
  scheme = lit "http" \/ scheme = lit "https" ->
  urlsplit (scheme ++ lit "://" ++ r)
  = match netloc_fault (host_text r) with
    | Some e => Raise e
    | None => Ok (scheme, host_text r,
                  drop_while host_char
                    (filter (fun c => negb (contains c unsafe_url_bytes)) r))
    end.
Proof.
  intros Hs. unfold App.urlsplit.
  assert (L : lstrip_by c0_control_or_space (scheme ++ lit "://" ++ r)
              = scheme ++ lit "://" ++ r)
    by by_scheme Hs.
  rewrite L, remove_unsafe_filter. clear L.
  rewrite filter_app_lit by by_scheme Hs.
  rewrite filter_app_lit by reflexivity.
  fold (host_text r). set (R := filter _ r).
  assert (F : find (scheme ++ lit "://" ++ R) (ch ":") 0 = py_len scheme)
    by by_scheme Hs.
  rewrite F.
  rewrite slice_head_app by reflexivity.
  replace (slice (scheme ++ lit "://" ++ R) (py_len scheme + 1)
             (py_len (scheme ++ lit "://" ++ R))) with (lit "//" ++ R).
  2:{ change (lit "://" ++ R) with ([ch ":"] ++ (lit "//" ++ R)).
      rewrite app_assoc. rewrite slice_tail_app; [reflexivity|].
      rewrite py_len_app. reflexivity. }
  assert (C : (0 <? py_len scheme)
              && match scheme ++ lit "://" ++ R with
                 | [] => false
                 | c :: _ => is_ascii c && is_ascii_alpha c
                 end
              && forallb scheme_char scheme = true)
    by by_scheme Hs.
  rewrite C.
  assert (M : List.map ascii_lower scheme = scheme)
    by by_scheme Hs.
  rewrite M.
  rewrite (slice_head_app (lit "//") R 2) by reflexivity.
  rewrite str_eqb_refl.
  change (lit "//" ++ R) with (ch "/" :: ch "/" :: R).
  rewrite splitnetloc_after_slashes. unfold App.netloc_fault.
  change (take_while host_char R) with (host_text r).
  destruct (bracket_fault check_bracketed_netloc (host_text r));
    [reflexivity|].
  destruct (checknetloc nfkc (host_text r)); reflexivity.
Qed.

Lemma scheme_and_host_shape (s : str) :
  exists scheme r,
    scheme_and_host s = (scheme, host_text r)
    /\ (scheme = lit "http" \/ scheme = lit "https")
    /\ with_scheme s = scheme ++ lit "://" ++ r.
Proof.
  unfold scheme_and_host, with_scheme, startswith_any. cbn [existsb].
  set (t := strip s).
  destruct (startswith t (lit "http://")) eqn:E1.
  - exists (lit "http"), (skipn 7 t). repeat split; [left; reflexivity|].
    cbn [orb negb]. apply (startswith_split t (lit "http://") E1).
  - destruct (startswith t (lit "https://")) eqn:E2.
    + exists (lit "https"), (skipn 8 t). repeat split; [right; reflexivity|].
      cbn [orb negb]. apply (startswith_split t (lit "https://") E2).
    + exists (lit "https"), t. repeat split. right; reflexivity.
Qed.

(** The normalizer returns the scheme and the host of its description
    whenever the parser accepts the host, and raises the parser's
    [ValueError] otherwise. *)
Lemma clean_shopify_url_outcome (s : str) :
  clean_shopify_url s
  = let '(scheme, host) := scheme_and_host s in
    match netloc_fault host with
    | Some e => Raise e
    | None => Ok (scheme ++ lit "://" ++ host)
    end.
Proof.
  destruct (scheme_and_host_shape s) as (scheme & r & E & Hs & W).
  rewrite E. unfold App.clean_shopify_url, urlparse, and_then.
  rewrite W, (urlsplit_scheme scheme r Hs).
  destruct (netloc_fault (host_text r)); reflexivity.
Qed.

(** A returned origin is a scheme, [://] and a host the parser took. *)
Lemma clean_shopify_url_ok (s o : str) :
  clean_shopify_url s = Ok o ->
  exists scheme r,
    scheme_and_host s = (scheme, host_text r)
    /\ (scheme = lit "http" \/ scheme = lit "https")
    /\ netloc_fault (host_text r) = None
    /\ o = scheme ++ lit "://" ++ host_text r.
Proof.
  rewrite clean_shopify_url_outcome.
  destruct (scheme_and_host_shape s) as (scheme & r & E & Hs & _).
  rewrite E. intros H. exists scheme, r.
  destruct (netloc_fault (host_text r)); [discriminate|].
  injection H as <-. auto.
Qed.

Lemma forallb_filter_id (p : char -> bool) (s : str) :
  forallb p s = true -> filter p s = s.
Proof.
  induction s as [|c s IH]; simpl; [reflexivity|].
  intros H. apply andb_true_iff in H as [Hc Hs]. rewrite Hc, IH; auto.
Qed.

Lemma forallb_take_while_other (p q : char -> bool) (s : str) :
  forallb p s = true -> forallb p (take_while q s) = true.
Proof.
  induction s as [|c s IH]; simpl; [reflexivity|].
  intros H. apply andb_true_iff in H as [Hc Hs].
  destruct (q c); simpl; [rewrite Hc, IH|]; auto.
Qed.

Lemma forallb_filter (p : char -> bool) (s : str) :
  forallb p (filter p s) = true.
Proof.
  induction s as [|c s IH]; simpl; [reflexivity|].
  destruct (p c) eqn:E; simpl; [rewrite E|]; exact IH.
Qed.

(** The host of a host is itself. *)
Lemma host_text_idem (r : str) : host_text (host_text r) = host_text r.
Proof.
  unfold host_text at 1.
  rewrite forallb_filter_id.
  - apply take_while_all. unfold host_text. apply take_while_forallb.
  - unfold host_text. apply forallb_take_while_other, forallb_filter.
Qed.

Lemma host_text_chars (r : str) (c : char) :
  In c (host_text r) -> host_char c = true.
Proof.
  intros H. pose proof (take_while_forallb host_char
    (filter (fun c => negb (contains c unsafe_url_bytes)) r)) as F.
  rewrite forallb_forall in F. apply F. exact H.
Qed.

(** C2 (amended): for every input string the normalizer trims the
    surrounding whitespace, takes [https] when the text starts with
    neither [http://] nor [https://], and returns the scheme, [://] and
    the host (the text after [://] up to the first [/], [?] or [#], tab,
    carriage return and line feed removed), provided the URL parser
    accepts that host; when the parser rejects it, the normalizer raises
    the parser's [ValueError].  [example.com] yields
    [https://example.com] and [http://example.com/some/path?x=1] yields
    [http://example.com]. *)
Theorem clean_shopify_url_scheme_and_host :
  (forall s : str,
      clean_shopify_url s
      = match netloc_fault (snd (scheme_and_host s)) with
        | Some e => Raise e
        | None => Ok (fst (scheme_and_host s) ++ lit "://"
                        ++ snd (scheme_and_host s))
        end)
  /\ clean_shopify_url (lit "example.com") = Ok (lit "https://example.com")
  /\ clean_shopify_url (lit "http://example.com/some/path?x=1")
     = Ok (lit "http://example.com").
Proof.
  split; [|split].
  - intros s. rewrite clean_shopify_url_outcome.
    destruct (scheme_and_host s) as [scheme host]. reflexivity.
  - rewrite clean_shopify_url_outcome. reflexivity.
  - rewrite clean_shopify_url_outcome. reflexivity.
Qed.

Lemma scheme_and_host_of_origin (scheme r : str) :
  scheme = lit "http" \/ scheme = lit "https" ->
  rstrip_by isspace (scheme ++ lit "://" ++ host_text r)
  = scheme ++ lit "://" ++ host_text r ->
  scheme_and_host (scheme ++ lit "://" ++ host_text r) = (scheme, host_text r).
Proof.
  intros Hs Hr. unfold scheme_and_host, strip.
  assert (L : lstrip_by isspace (scheme ++ lit "://" ++ host_text r)
              = scheme ++ lit "://" ++ host_text r)
    by by_scheme Hs.
  rewrite L, Hr. destruct Hs; subst scheme.
  - change (lit "http" ++ lit "://" ++ host_text r)
      with (lit "http://" ++ host_text r).
    rewrite startswith_app.
    change (skipn 7 (lit "http://" ++ host_text r)) with (host_text r).
    rewrite host_text_idem. reflexivity.
  - change (lit "https" ++ lit "://" ++ host_text r)
      with (lit "https://" ++ host_text r).
    change (startswith (lit "https://" ++ host_text r) (lit "http://")) with false.
    rewrite startswith_app.
    change (skipn 8 (lit "https://" ++ host_text r)) with (host_text r).
    rewrite host_text_idem. reflexivity.
Qed.

(** C7 (amended): the normalizer returns its own output unchanged
    whenever that output does not end in whitespace. *)
Theorem clean_shopify_url_idempotent (s o : str) :
  clean_shopify_url s = Ok o ->
  rstrip_by isspace o = o ->
  clean_shopify_url o = Ok o.
Proof.
  intros H Hr.
  destruct (clean_shopify_url_ok s o H) as (scheme & r & _ & Hs & F & ->).
  rewrite clean_shopify_url_outcome.
  rewrite (scheme_and_host_of_origin scheme r Hs Hr), F. reflexivity.
Qed.

Lemma origin_has_no_query (scheme r : str) :
  scheme = lit "http" \/ scheme = lit "https" ->
  ~ In (ch "?") (scheme ++ lit "://" ++ host_text r).
Proof.
  intros Hs H. apply in_app_or in H as [H|H].
  - destruct Hs; subst scheme; cbv in H; intuition discriminate.
  - apply in_app_or in H as [H|H].
    + cbv in H; intuition discriminate.
    + apply host_text_chars in H. discriminate H.
Qed.

(** C5 (amended): on every origin the normalizer returns, the test for
    the suffix [products.json?limit=1000] fails, so the else-arm is
    never taken and the endpoint is the origin with its trailing
    slashes removed followed by [/products.json?limit=1000]; it is
    origin + [/products.json?limit=1000] whenever the host is not
    empty. *)
Theorem api_url_of_origin (s o : str) :
  clean_shopify_url s = Ok o ->
  has_api_suffix o = false
  /\ api_url_of o = rstrip (lit "/") o ++ lit "/products.json?limit=1000"
  /\ (snd (scheme_and_host s) <> [] ->
      api_url_of o = o ++ lit "/products.json?limit=1000").
Proof.
  intros H.
  destruct (clean_shopify_url_ok s o H) as (scheme & r & E & Hs & _ & ->).
  assert (A : has_api_suffix (scheme ++ lit "://" ++ host_text r) = false).
  { unfold has_api_suffix.
    destruct (endswith _ api_suffix) eqn:W; [|reflexivity].
    exfalso. apply (origin_has_no_query scheme r Hs).
    apply (rstrip_by_incl (fun c => contains c (lit "/"))).
    apply (endswith_incl _ _ _ W). cbv. intuition. }
  split; [exact A|]. unfold has_api_suffix in A. unfold api_url_of.
  rewrite A. cbn [negb]. split; [reflexivity|].
  rewrite E. cbn [snd]. intros Hne. f_equal.
  destruct (exists_last Hne) as (h & c & Eh).
  pose proof (host_text_chars r c) as Hc. rewrite Eh in *.
  rewrite !app_assoc. apply rstrip_by_last.
  assert (Hin : In c (h ++ [c])) by (apply in_or_app; right; left; reflexivity).
  specialize (Hc Hin).
  rewrite host_char_eq in Hc.
  unfold contains. change (lit "/") with [47%N]. cbn [existsb].
  destruct (N.eqb c 47); [discriminate|reflexivity].
Qed.

End Normalizer.

(* ================================================================== *)
(** ** The claims on concrete inputs *)
(* ================================================================== *)

Lemma clean_shopify_url_idempotent_witness :
  clean_shopify_url no_normalization no_bracket_check (lit "example.com")
  = Ok (lit "https://example.com")
  /\ rstrip_by isspace (lit "https://example.com") = lit "https://example.com"
  /\ clean_shopify_url no_normalization no_bracket_check (lit "https://example.com")
     = Ok (lit "https://example.com").
Proof.
  assert (H1 : clean_shopify_url no_normalization no_bracket_check (lit "example.com")
               = Ok (lit "https://example.com")) by reflexivity.
  assert (H2 : rstrip_by isspace (lit "https://example.com")
               = lit "https://example.com") by reflexivity.
  split; [exact H1|]. split; [exact H2|].
  exact (clean_shopify_url_idempotent no_normalization no_bracket_check
           (lit "example.com") (lit "https://example.com") H1 H2).
Defined.

(** On [a /b] the host keeps its trailing blank, and the second pass
    trims it. *)
Lemma clean_shopify_url_not_idempotent :
  exists s o : str,
    s = lit "a /b" /\ o = lit "https://a "
    /\ forall nfkc check_bracketed_netloc,
        clean_shopify_url nfkc check_bracketed_netloc s = Ok o
        /\ clean_shopify_url nfkc check_bracketed_netloc o = Ok (lit "https://a")
        /\ lit "https://a" <> o.
Proof.
  exists (lit "a /b"), (lit "https://a "). repeat split; try reflexivity.
  discriminate.
Qed.

(** A text with an unmatched bracket makes the parser raise. *)
Lemma clean_shopify_url_raises :
  exists s : str,
    s = lit "[" 
    /\ forall nfkc check_bracketed_netloc,
        clean_shopify_url nfkc check_bracketed_netloc s
        = Raise (mk_exc ValueError (lit "Invalid IPv6 URL")).
Proof. exists (lit "["). split; reflexivity. Qed.

Lemma api_url_of_origin_witness :
  clean_shopify_url no_normalization no_bracket_check (lit "example.com")
  = Ok (lit "https://example.com")
  /\ has_api_suffix (lit "https://example.com") = false
  /\ api_url_of (lit "https://example.com")
     = lit "https://example.com/products.json?limit=1000".
Proof.
  assert (H1 : clean_shopify_url no_normalization no_bracket_check (lit "example.com")
               = Ok (lit "https://example.com")) by reflexivity.
  destruct (api_url_of_origin no_normalization no_bracket_check
              (lit "example.com") (lit "https://example.com") H1) as (A & _ & C).
  split; [exact H1|]. split; [exact A|].
  apply C. discriminate.
Defined.

(** With an empty host the origin ends in slashes, which the fetcher
    strips before it appends the path. *)
Lemma api_url_of_empty_host :
  exists s o : str,
    s = lit "/" /\ o = lit "https://"
    /\ (forall nfkc check_bracketed_netloc,
          clean_shopify_url nfkc check_bracketed_netloc s = Ok o)
    /\ api_url_of o = lit "https:/products.json?limit=1000"
    /\ api_url_of o <> o ++ lit "/products.json?limit=1000".
Proof.
  exists (lit "/"), (lit "https://"). repeat split; try reflexivity.
  discriminate.
Qed.

(* ================================================================== *)
(** ** The grid loop *)
(* ================================================================== *)

Lemma slice_nonneg {A} (l : list A) (lo hi : Z) :
  0 <= lo <= hi ->
  slice l lo hi = firstn (Z.to_nat (hi - lo)) (skipn (Z.to_nat lo) l).
Proof.
  intros H. unfold slice, clamp_index, py_len.
  destruct (Z.ltb_spec lo 0); [lia|]. destruct (Z.ltb_spec hi 0); [lia|].
  destruct (Z_le_gt_dec hi (Z.of_nat (List.length l))) as [Hh|Hh].
  - rewrite !Z.min_l by lia. reflexivity.
  - rewrite (Z.min_r hi) by lia.
    destruct (Z_le_gt_dec lo (Z.of_nat (List.length l))) as [Hl|Hl].
    + rewrite Z.min_l by lia.
      rewrite !firstn_all2; [reflexivity| |]; rewrite length_skipn; lia.
    + rewrite Z.min_r by lia.
      rewrite !skipn_all2 by lia. rewrite !firstn_nil. reflexivity.
Qed.

Lemma batch_count_bounds (len c : nat) :
  (0 < c)%nat ->
  (len <= batch_count len c * c)%nat
  /\ (0 < len -> (batch_count len c - 1) * c < len)%nat
  /\ (len = 0 -> batch_count len c = 0)%nat.
Proof.
  intros Hc. unfold batch_count, range_length.
  destruct (Z.ltb_spec 0 (Z.of_nat c)); [|lia].
  destruct (Z.ltb_spec 0 (Z.of_nat len)).
  - rewrite Z.sub_0_r.
    pose proof (Z.div_mod (Z.of_nat len - 1) (Z.of_nat c)) as D.
    pose proof (Z.mod_pos_bound (Z.of_nat len - 1) (Z.of_nat c)) as B.
    assert (Q : 0 <= (Z.of_nat len - 1) / Z.of_nat c)
      by (apply Z.div_pos; lia).
    set (q := (Z.of_nat len - 1) / Z.of_nat c) in *.
    set (r := (Z.of_nat len - 1) mod Z.of_nat c) in *.
    replace (Z.to_nat (q + 1)) with (S (Z.to_nat q)) by lia.
    assert (E : Z.of_nat (Z.to_nat q * c) = Z.of_nat c * q) by lia.
    split; [cbn [Nat.mul]; nia|]. split; [|lia].
    intros _. replace (S (Z.to_nat q) - 1)%nat with (Z.to_nat q) by lia. nia.
  - assert (len = 0)%nat by lia. subst. cbn. repeat split; lia.
Qed.

Lemma batches_as_firstn {A} (l : list A) (c : Z) :
  0 < c ->
  batches l c
  = List.map (fun k => firstn (Z.to_nat c) (skipn (k * Z.to_nat c) l))
             (seq 0 (batch_count (List.length l) (Z.to_nat c))).
Proof.
  intros Hc. unfold batches, py_range, batch_count, py_len.
  rewrite Z2Nat.id by lia. rewrite map_map. apply map_ext. intros k.
  rewrite slice_nonneg by nia. f_equal; [|f_equal]; nia.
Qed.

Lemma firstn_add {A} (a b : nat) (l : list A) :
  firstn (a + b) l = firstn a l ++ firstn b (skipn a l).
Proof.
  revert l; induction a as [|a IH]; intros l; [reflexivity|].
  destruct l as [|x l]; cbn [Nat.add firstn skipn app].
  - rewrite firstn_nil. reflexivity.
  - rewrite IH. reflexivity.
Qed.

Lemma concat_batches_firstn {A} (l : list A) (c m : nat) :
  List.concat (List.map (fun k => firstn c (skipn (k * c) l)) (seq 0 m))
  = firstn (m * c) l.
Proof.
  induction m as [|m IH]; [reflexivity|].
  rewrite seq_S, map_app, concat_app, IH. cbn [List.map List.concat Nat.add].
  rewrite app_nil_r. replace (S m * c)%nat with (m * c + c)%nat by lia.
  symmetry. apply firstn_add.
Qed.

Lemma batches_13_by_5 {A} (l : list A) :
  List.length l = 13%nat -> List.map py_len (batches l 5) = [5; 5; 3].
Proof.
  intros L.
  do 13 (destruct l as [|? l]; [discriminate L|]).
  destruct l; [reflexivity | discriminate L].
Qed.

(** C4: for a column count from 2 to 8 the grid loop cuts the entries
    into consecutive batches of that size, the last one alone possibly
    shorter (and never empty); 13 entries in 5 columns give batches of
    sizes 5, 5 and 3, and no entry gives no batch. *)
Theorem batches_partition {A} (image_data : list A) (cols_count : Z) :
  2 <= cols_count <= 8 ->
  List.concat (batches image_data cols_count) = image_data
  /\ (forall k batch,
         nth_error (batches image_data cols_count) k = Some batch ->
         0 < py_len batch <= cols_count
         /\ (S k < List.length (batches image_data cols_count) ->
             py_len batch = cols_count)%nat)
  /\ (py_len image_data = 13 -> cols_count = 5 ->
      List.map py_len (batches image_data cols_count) = [5; 5; 3])
  /\ (image_data = [] -> batches image_data cols_count = []).
Proof.
  intros Hc.
  assert (Hpos : 0 < cols_count) by lia.
  pose proof (batches_as_firstn image_data cols_count Hpos) as E.
  set (c := Z.to_nat cols_count) in *.
  set (n := List.length image_data) in *.
  assert (Hcn : (0 < c)%nat) by (unfold c; lia).
  destruct (batch_count_bounds n c Hcn) as (B1 & B2 & B3).
  split; [|split; [|split]].
  - rewrite E, concat_batches_firstn. apply firstn_all2. exact B1.
  - intros k batch Hk. rewrite E in Hk |- *.
    rewrite length_map, length_seq.
    rewrite nth_error_map, nth_error_seq in Hk.
    destruct (Nat.ltb_spec k (batch_count n c)) as [Hlt|]; [|discriminate].
    cbn [option_map Nat.add] in Hk. injection Hk as <-.
    unfold py_len. rewrite length_firstn, length_skipn. fold n.
    assert (Hn : (0 < n)%nat) by (destruct n; [rewrite B3 in Hlt; lia | lia]).
    specialize (B2 Hn).
    assert (Hk1 : (k * c <= (batch_count n c - 1) * c)%nat)
      by (apply Nat.mul_le_mono_r; lia).
    split; [unfold c in *; lia|].
    intros Hlast.
    assert (Hk2 : (S k * c <= (batch_count n c - 1) * c)%nat)
      by (apply Nat.mul_le_mono_r; lia).
    unfold c in *. lia.
  - intros H13 ->. apply batches_13_by_5. unfold py_len in H13. lia.
  - intros ->. rewrite E, B3 by reflexivity. reflexivity.
Qed.

(* ================================================================== *)
(** ** The extractor *)
(* ================================================================== *)

Section Extractor.

Variable repr_nonstr : json -> str.

Local Abbreviation product_entry := (product_entry repr_nonstr).
Local Abbreviation extract_loop := (extract_loop repr_nonstr).
Local Abbreviation extract_images := (extract_images repr_nonstr).
Local Abbreviation described_entry := (described_entry repr_nonstr).
Local Abbreviation handle_text := (handle_text repr_nonstr).

(** One turn of the loop on a product record. *)
Lemma product_entry_record (origin : str) (fields : list (str * json)) :
  is_product_record (JDict fields) = true ->
  product_entry origin (JDict fields)
  = Ok (option_map
          (fun src => (src, title_of fields,
                       origin ++ lit "/products/" ++ handle_text fields))
          (first_image_src fields)).
Proof.
  unfold is_product_record, App.product_entry, and_then, py_get,
    first_image_src, title_of, Reading.handle_text.
  destruct (lookup (lit "title") fields) as [title|];
    destruct (lookup (lit "handle") fields) as [handle|];
    destruct (lookup (lit "images") fields) as [images|];
    try reflexivity; intros R.
  all: destruct images as [| b | n | f | s | [|first rest] | d];
    try (destruct (truthy _) eqn:T; [discriminate R | reflexivity]);
    cbn [truthy negb] in R |- *; try reflexivity; try discriminate R.
  all: destruct first; cbn [truthy negb] in R; try discriminate R.
  all: cbn [py_first]; destruct (lookup (lit "src") _) as [src|];
    [destruct (truthy src)|]; reflexivity.
Qed.

Lemma described_entry_record (origin : str) (fields : list (str * json)) :
  described_entry origin (JDict fields)
  = match first_image_src fields with
    | Some src =>
        [(src, title_of fields, origin ++ lit "/products/" ++ handle_text fields)]
    | None => []
    end.
Proof. reflexivity. Qed.

(** The loop appends, product by product, what the description says. *)
Lemma extract_loop_described (origin : str) (products : list json) :
  forallb is_product_record products = true ->
  forall images,
    extract_loop origin products images
    = Ok (images ++ flat_map (described_entry origin) products).
Proof.
  induction products as [|product rest IH]; intros R images.
  - cbn. rewrite app_nil_r. reflexivity.
  - cbn [forallb] in R. apply andb_true_iff in R as [Rp Rr].
    destruct product; try discriminate Rp.
    cbn [App.extract_loop flat_map].
    rewrite (product_entry_record origin fields Rp), described_entry_record.
    destruct (first_image_src fields); cbn [option_map].
    + rewrite (IH Rr). rewrite <- app_assoc. reflexivity.
    + rewrite (IH Rr). reflexivity.
Qed.

Lemma described_entry_length (origin : str) (products : list json) :
  (List.length (flat_map (described_entry origin) products)
   <= List.length products)%nat.
Proof.
  induction products as [|product rest IH]; [reflexivity|].
  cbn [flat_map]. rewrite length_app. cbn [List.length].
  assert (List.length (described_entry origin product) <= 1)%nat.
  { destruct product; cbn; try lia.
    destruct (first_image_src fields); cbn; lia. }
  lia.
Qed.

(** C3: on a list of product records the extractor returns, in the
    order of the products, one triple for each product whose first
    image has a usable [src] -- that [src], the title, and origin +
    [/products/] + handle -- and nothing for the others; the result is
    never longer than the input. *)
Theorem extract_images_first_image (products : list json) (origin : str) :
  forallb is_product_record products = true ->
  exists images,
    extract_images (JList products) origin = Ok images
    /\ images = flat_map (described_entry origin) products
    /\ (List.length images <= List.length products)%nat
    /\ (forall fields,
           In (JDict fields) products ->
           described_entry origin (JDict fields)
           = match lookup (lit "images") fields with
             | Some (JList (JDict image :: _)) =>
                 match lookup (lit "src") image with
                 | Some src =>
                     if truthy src
                     then [(src, title_of fields,
                            origin ++ lit "/products/" ++ handle_text fields)]
                     else []
                 | None => []
                 end
             | _ => []
             end).
Proof.
  intros R. exists (flat_map (described_entry origin) products).
  split; [|split; [reflexivity|split]].
  - unfold App.extract_images. cbn [py_iter and_then].
    rewrite (extract_loop_described origin products R). reflexivity.
  - apply described_entry_length.
  - intros fields _. rewrite described_entry_record. unfold first_image_src.
    destruct (lookup (lit "images") fields) as [[| | | | |[|[] ?]|]|];
      try reflexivity.
    destruct (lookup (lit "src") fields0) as [src|]; [|reflexivity].
    destruct (truthy src); reflexivity.
Qed.

(** C10: a product record without a [title] whose first image has a
    usable [src] appears in the result with the title
    [Unknown Product], wherever it stands among the products. *)
Theorem extract_images_unknown_title
  (before after : list json) (fields : list (str * json)) (src : json)
  (origin : str) :
  forallb is_product_record before = true ->
  forallb is_product_record after = true ->
  lookup (lit "title") fields = None ->
  first_image_src fields = Some src ->
  extract_images (JList (before ++ JDict fields :: after)) origin
  = Ok (flat_map (described_entry origin) before
        ++ (src, JStr (lit "Unknown Product"),
            origin ++ lit "/products/" ++ handle_text fields)
        :: flat_map (described_entry origin) after).
Proof.
  intros Rb Ra Ht Hs.
  assert (Rp : is_product_record (JDict fields) = true).
  { unfold first_image_src in Hs. unfold is_product_record.
    destruct (lookup (lit "images") fields) as [[| | | | |[|[] ?]|]|];
      try discriminate Hs. reflexivity. }
  unfold App.extract_images. cbn [py_iter and_then].
  rewrite extract_loop_described.
  - cbn [app]. rewrite flat_map_app. cbn [flat_map].
    rewrite described_entry_record, Hs. unfold title_of. rewrite Ht.
    reflexivity.
  - rewrite forallb_app. cbn [forallb]. rewrite Rb, Rp, Ra. reflexivity.
Qed.

End Extractor.

(* ================================================================== *)
(** ** The fetcher and the page *)
(* ================================================================== *)

Lemma for_each_shows {A} (items : list A) (body : A -> ui unit)
  (shown : A -> list event) :
  (forall x, body x = (shown x, Ok tt)) ->
  for_each items body = (flat_map shown items, Ok tt).
Proof.
  intros H. induction items as [|x rest IH]; [reflexivity|].
  cbn [for_each flat_map]. unfold bind. rewrite H, IH. reflexivity.
Qed.

Lemma batches_nil {A} (cols_count : Z) : batches (@nil A) cols_count = [].
Proof.
  unfold batches, py_range, range_length. cbn [py_len List.length Z.of_nat].
  destruct (0 <? cols_count); reflexivity.
Qed.

(** [raise_for_status] raises on the statuses from 400 to 599. *)
Lemma raise_for_status_4xx_5xx (r : response) :
  raise_for_status r
  = if (400 <=? status_code r) && (status_code r <? 600)
    then Raise (mk_exc HTTPError (status_text r))
    else Ok tt.
Proof.
  unfold raise_for_status.
  destruct (Z.leb_spec 400 (status_code r)), (Z.ltb_spec (status_code r) 600),
    (Z.ltb_spec (status_code r) 500), (Z.leb_spec 500 (status_code r));
    try reflexivity; lia.
Qed.

Section Pipeline.

Variable nfkc : str -> str.
Variable check_bracketed_netloc : str -> option str.
Variable repr_nonstr : json -> str.
Variable json_error_is_request_exception : bool.
Variable requests_get : str -> Z -> get_outcome.

Local Abbreviation clean_shopify_url :=
  (clean_shopify_url nfkc check_bracketed_netloc).
Local Abbreviation fetch_shopify_products :=
  (fetch_shopify_products json_error_is_request_exception requests_get).
Local Abbreviation extract_images := (extract_images repr_nonstr).
Local Abbreviation described_entry := (described_entry repr_nonstr).
Local Abbreviation render_cell := (render_cell repr_nonstr).
Local Abbreviation render_row := (render_row repr_nonstr).
Local Abbreviation cell_events := (cell_events repr_nonstr).
Local Abbreviation row_events := (row_events repr_nonstr).
Local Abbreviation title_markup := (title_markup repr_nonstr).
Local Abbreviation image_markup := (image_markup repr_nonstr).
Local Abbreviation main_block :=
  (main_block nfkc check_bracketed_netloc repr_nonstr
     json_error_is_request_exception requests_get).

(** An exception raised inside the [try]: the first clause that
    catches it decides the message. *)
Lemma recovered_or_left_out (e : exc) :
  if is_RequestException json_error_is_request_exception e
  then try_except (lift (Raise e))
         (fetch_handler json_error_is_request_exception)
       = ([StError (lit "Error fetching data: " ++ exc_text e)], Ok (JList []))
  else if is_ValueError e
  then try_except (lift (Raise e))
         (fetch_handler json_error_is_request_exception)
       = ([StError (lit "Invalid JSON response. Is this a Shopify site?")],
          Ok (JList []))
  else True.
Proof.
  unfold try_except, lift, fetch_handler.
  destruct (is_RequestException json_error_is_request_exception e);
    [reflexivity|].
  destruct (is_ValueError e); [reflexivity | exact I].
Qed.

(** C1 (amended): when [requests.get] fails with one of its own
    exceptions (no connection, timeout) or the status is 4xx or 5xx,
    the fetcher shows [Error fetching data: ...] and returns the empty
    list; when the body is not JSON ([response.json()] raises its
    [JSONDecodeError]) it shows one error message and returns the empty
    list; when [requests.get] or [response.json()] lets another
    exception through, the fetcher shows the first clause's message if
    the exception is a [RequestException], the second clause's if it is
    another [ValueError], and returns the empty list; when the body
    decodes to an object it returns without any message.  In all these
    cases nothing is raised. *)
Theorem fetch_shopify_products_recovers (base_url : str) :
  match requests_get (api_url_of base_url) 250 with
  | Failed (Unwrapped kind) text =>
      if is_RequestException json_error_is_request_exception (mk_exc kind text)
      then fetch_shopify_products base_url
           = ([StError (lit "Error fetching data: " ++ text)], Ok (JList []))
      else if is_ValueError (mk_exc kind text)
      then fetch_shopify_products base_url
           = ([StError (lit "Invalid JSON response. Is this a Shopify site?")],
              Ok (JList []))
      else True
  | Failed _ text =>
      fetch_shopify_products base_url
      = ([StError (lit "Error fetching data: " ++ text)], Ok (JList []))
  | Responded r =>
      if (400 <=? status_code r) && (status_code r <? 600)
      then fetch_shopify_products base_url
           = ([StError (lit "Error fetching data: " ++ status_text r)],
              Ok (JList []))
      else
        match body r with
        | Undecodable text =>
            fetch_shopify_products base_url
            = ([StError
                  (if json_error_is_request_exception
                   then lit "Error fetching data: " ++ text
                   else lit "Invalid JSON response. Is this a Shopify site?")],
               Ok (JList []))
        | Unreadable kind text =>
            if is_RequestException json_error_is_request_exception
                 (mk_exc kind text)
            then fetch_shopify_products base_url
                 = ([StError (lit "Error fetching data: " ++ text)],
                    Ok (JList []))
            else if is_ValueError (mk_exc kind text)
            then fetch_shopify_products base_url
                 = ([StError (lit "Invalid JSON response. Is this a Shopify site?")],
                    Ok (JList []))
            else True
        | Decoded (JDict fields) =>
            fetch_shopify_products base_url
            = ([], Ok match lookup (lit "products") fields with
                      | Some products => products
                      | None => JList []
                      end)
        | Decoded _ => True
        end
  end.
Proof.
  unfold App.fetch_shopify_products, and_then.
  destruct (requests_get (api_url_of base_url) 250) as [why text|r].
  - destruct why as [| | |kind]; try reflexivity.
    cbn [failure_class]. apply recovered_or_left_out.
  - rewrite raise_for_status_4xx_5xx.
    destruct ((400 <=? status_code r) && (status_code r <? 600)); [reflexivity|].
    unfold response_json. destruct (body r) as [data|text|kind text].
    + destruct data; try exact I. cbn [py_get].
      destruct (lookup (lit "products") fields); reflexivity.
    + cbn. unfold fetch_handler, is_RequestException. cbn [exc_kind].
      destruct json_error_is_request_exception; reflexivity.
    + apply recovered_or_left_out.
Qed.

Lemma render_cell_shows (cell : Z * image_entry) :
  render_cell cell = (cell_events cell, Ok tt).
Proof. destruct cell as [idx [[img_url title] product_url]]. reflexivity. Qed.

Lemma render_row_shows (cols_count : Z) (batch : list image_entry) :
  render_row cols_count batch = (row_events cols_count batch, Ok tt).
Proof.
  unfold App.render_row, Reading.row_events, bind, show.
  rewrite (for_each_shows _ _ cell_events render_cell_shows). reflexivity.
Qed.

(** C9: the grid loop shows, for every entry of every batch, two pieces
    of markup in the entry's column, and the title, the image URL and
    the product URL stand in them as they are: the title twice, in the
    [title] attribute and as the text of the [div], whatever characters
    it holds. *)
Theorem grid_markup_verbatim :
  (forall (image_data : list image_entry) (cols_count : Z),
      for_each (batches image_data cols_count) (render_row cols_count)
      = (flat_map (row_events cols_count) (batches image_data cols_count),
         Ok tt))
  /\ (forall (idx : Z) (img_url title product_url : str),
         cell_events (idx, (JStr img_url, JStr title, product_url))
         = [StMarkdown idx
              (lit "<div style=" ++ dq
               ++ lit "text-align:center; margin:0; padding:0; font-size:0.9rem; overflow:hidden; text-overflow:ellipsis; white-space:nowrap;"
               ++ dq ++ lit " title=" ++ dq ++ title ++ dq ++ lit ">"
               ++ title ++ lit "</div>");
            StMarkdown idx
              (lit "<a href=" ++ dq ++ product_url ++ dq ++ lit " target="
               ++ dq ++ lit "_blank" ++ dq ++ lit "><img src=" ++ dq
               ++ img_url ++ dq ++ lit " style=" ++ dq
               ++ lit "width:100%; border-radius:6px;" ++ dq ++ lit "></a>")])
  /\ title_markup (JStr (lit "<b>" ++ dq ++ lit "x" ++ dq ++ lit "</b>"))
     = lit "<div style=" ++ dq
       ++ lit "text-align:center; margin:0; padding:0; font-size:0.9rem; overflow:hidden; text-overflow:ellipsis; white-space:nowrap;"
       ++ dq ++ lit " title=" ++ dq ++ lit "<b>" ++ dq ++ lit "x" ++ dq
       ++ lit "</b>" ++ dq ++ lit "><b>" ++ dq ++ lit "x" ++ dq
       ++ lit "</b></div>".
Proof.
  split; [|split].
  - intros image_data cols_count.
    apply for_each_shows. intros batch. apply render_row_shows.
  - reflexivity.
  - reflexivity.
Qed.

(** C8 (amended): when the fetcher returns no products the page shows
    the warning after what the fetcher has shown, renders no cell and
    raises nothing; when it returns product records none of which has
    a usable image, the page renders no cell and raises nothing, and it
    shows the count of the products and the slider, not a notice. *)
Theorem main_block_empty_catalog
  (url_input : str) (cols_count : Z) (cleaned_url : str)
  (shown : list event) (products : json) :
  url_input <> [] ->
  2 <= cols_count <= 8 ->
  clean_shopify_url url_input = Ok cleaned_url ->
  fetch_shopify_products cleaned_url = (shown, Ok products) ->
  (truthy products = false ->
   main_block url_input cols_count
   = (StSpinner (lit "Fetching inventory from " ++ cleaned_url ++ lit " ...")
        :: shown
        ++ [StWarning (lit "No products found. Ensure the URL is correct and the site is built on Shopify.")],
      Ok tt))
  /\ (forall records,
         products = JList records ->
         records <> [] ->
         forallb is_product_record records = true ->
         flat_map (described_entry cleaned_url) records = [] ->
         main_block url_input cols_count
         = (StSpinner (lit "Fetching inventory from " ++ cleaned_url ++ lit " ...")
              :: shown
              ++ [StSuccess (lit "Found " ++ str_of_Z (py_len records)
                               ++ lit " products.");
                  StSlider (lit "Grid Columns") 2 8 5],
            Ok tt)).
Proof.
  intros Hu Hc Hclean Hfetch.
  assert (Tu : truthy (JStr url_input) = true)
    by (destruct url_input; [contradiction|reflexivity]).
  unfold App.main_block. rewrite Tu, Hclean.
  cbv beta iota delta [bind lift show]. rewrite Hfetch. split.
  - intros Hp. rewrite Hp. reflexivity.
  - intros records -> Hne Hr He.
    assert (Tp : truthy (JList records) = true)
      by (destruct records; [contradiction|reflexivity]).
    rewrite Tp. unfold App.extract_images. cbn [py_iter and_then].
    rewrite (extract_loop_described repr_nonstr cleaned_url records Hr).
    rewrite He. cbn [app py_len_of]. unfold rows_of.
    destruct (Z.eqb_spec cols_count 0); [lia|].
    rewrite batches_nil. reflexivity.
Qed.

End Pipeline.

(* ================================================================== *)
(** ** The fetcher, the extractor and the page on concrete inputs *)
(* ================================================================== *)

(** A status 300 with a catalog in its body: no 2xx status, and the
    fetcher returns the products without any message. *)
Lemma fetch_returns_on_status_300 :
  exists r : response,
    r = mk_response 300 (lit "300 Multiple Choices")
          (Decoded (JDict [(lit "products", JList [shirt])]))
    /\ forall json_error_is_request_exception base_url,
        fetch_shopify_products json_error_is_request_exception (always r) base_url
        = ([], Ok (JList [shirt])).
Proof. eexists. split; reflexivity. Qed.

(** C6: a body that decodes to a JSON array has no [get]; the
    [AttributeError] is caught by neither clause and leaves the
    fetcher. *)
Theorem fetch_raises_on_array_body
  (json_error_is_request_exception : bool) (base_url : str) :
  fetch_shopify_products json_error_is_request_exception
    (always (mk_response 200 [] (Decoded (JList [])))) base_url
  = ([], Raise (mk_exc AttributeError
                  (lit "'list' object has no attribute 'get'"))).
Proof. reflexivity. Qed.

Lemma extract_images_first_image_witness :
  extract_images sample_repr (JList [shirt; bare_product]) (lit "https://myshop.com")
  = Ok [(JStr (lit "https://cdn.example/a.png"), JStr (lit "Shirt"),
         lit "https://myshop.com/products/shirt")].
Proof.
  destruct (extract_images_first_image sample_repr [shirt; bare_product]
              (lit "https://myshop.com") eq_refl) as (images & E & D & _).
  rewrite E, D. reflexivity.
Defined.

Lemma extract_images_unknown_title_witness :
  extract_images sample_repr (JList [shirt; untitled; bare_product])
    (lit "https://myshop.com")
  = Ok [(JStr (lit "https://cdn.example/a.png"), JStr (lit "Shirt"),
         lit "https://myshop.com/products/shirt");
        (JStr (lit "https://cdn.example/mug.png"), JStr (lit "Unknown Product"),
         lit "https://myshop.com/products/mug")].
Proof.
  exact (extract_images_unknown_title sample_repr [shirt] [bare_product]
           [(lit "handle", JStr (lit "mug"));
            (lit "images",
             JList [JDict [(lit "src", JStr (lit "https://cdn.example/mug.png"))]])]
           (JStr (lit "https://cdn.example/mug.png"))
           (lit "https://myshop.com") eq_refl eq_refl eq_refl eq_refl).
Defined.

Lemma batches_partition_witness :
  List.concat (batches [1; 2; 3; 4; 5; 6; 7; 8; 9; 10; 11; 12; 13] 5)
  = [1; 2; 3; 4; 5; 6; 7; 8; 9; 10; 11; 12; 13]
  /\ List.map py_len (batches [1; 2; 3; 4; 5; 6; 7; 8; 9; 10; 11; 12; 13] 5)
     = [5; 5; 3].
Proof.
  destruct (batches_partition [1; 2; 3; 4; 5; 6; 7; 8; 9; 10; 11; 12; 13] 5
              ltac:(lia))
    as (C & _ & S & _).
  split; [exact C | exact (S eq_refl eq_refl)].
Defined.

(** An empty catalog: the warning, and nothing else after the spinner. *)
Lemma main_block_empty_catalog_witness :
  main_block no_normalization no_bracket_check sample_repr true
    (always (catalog_of [])) (lit "myshop.com") 5
  = ([StSpinner (lit "Fetching inventory from https://myshop.com ...");
      StWarning (lit "No products found. Ensure the URL is correct and the site is built on Shopify.")],
     Ok tt).
Proof.
  assert (Hu : lit "myshop.com" <> []) by discriminate.
  exact (proj1 (main_block_empty_catalog no_normalization no_bracket_check
                  sample_repr true (always (catalog_of []))
                  (lit "myshop.com") 5 (lit "https://myshop.com") [] (JList [])
                  Hu ltac:(lia)
                  eq_refl eq_refl)
               eq_refl).
Defined.

(** A catalog of one product without images: the page shows the count
    and the slider, and no notice. *)
Lemma main_block_no_notice_without_images :
  exists (url_input : str) (products : list json),
    url_input = lit "myshop.com" /\ products = [bare_product]
    /\ forall nfkc check_bracketed_netloc repr_nonstr json_error_is_request_exception,
        main_block nfkc check_bracketed_netloc repr_nonstr
          json_error_is_request_exception (always (catalog_of products))
          url_input 5
        = ([StSpinner (lit "Fetching inventory from https://myshop.com ...");
            StSuccess (lit "Found 1 products.");
            StSlider (lit "Grid Columns") 2 8 5],
           Ok tt).
Proof. do 2 eexists. repeat split; reflexivity. Qed.

(** The run of section 8 of the description: two products, one with an
    image, give one cell that links to the product's page. *)
Example main_block_one_cell :
  main_block no_normalization no_bracket_check sample_repr true
    (always (catalog_of [shirt; bare_product])) (lit "myshop.com") 5
  = ([StSpinner (lit "Fetching inventory from https://myshop.com ...");
      StSuccess (lit "Found 2 products.");
      StSlider (lit "Grid Columns") 2 8 5;
      StColumns 5;
      StMarkdown 0 (title_markup sample_repr (JStr (lit "Shirt")));
      StMarkdown 0 (image_markup sample_repr (JStr (lit "https://cdn.example/a.png"))
                      (lit "https://myshop.com/products/shirt"))],
     Ok tt).
Proof. reflexivity. Qed.

(* ================================================================== *)
(** ** Further properties: the endpoint and the fetcher *)
(* ================================================================== *)

Lemma drop_while_idem (p : char -> bool) (s : str) :
  drop_while p (drop_while p s) = drop_while p s.
Proof.
  induction s as [|c s IH]; [reflexivity|].
  simpl. destruct (p c) eqn:E; [exact IH|]. simpl. rewrite E. reflexivity.
Qed.

Lemma rstrip_by_idem (p : char -> bool) (s : str) :
  rstrip_by p (rstrip_by p s) = rstrip_by p s.
Proof.
  unfold rstrip_by. rewrite rev_involutive, drop_while_idem. reflexivity.
Qed.

Lemma endswith_app (a suffix : str) : endswith (a ++ suffix) suffix = true.
Proof.
  unfold endswith. rewrite length_app.
  replace (List.length a + List.length suffix - List.length suffix)%nat
    with (List.length a) by lia.
  rewrite skipn_app, Nat.sub_diag, skipn_all. cbn [skipn app].
  rewrite str_eqb_refl, andb_true_r. apply Nat.leb_le. lia.
Qed.

(** X1: the endpoint of an endpoint is itself: a URL the fetcher has built
    (or one that already ends with the suffix) is sent as it is. *)
Theorem api_url_of_idempotent (base_url : str) :
  api_url_of (api_url_of base_url) = api_url_of base_url.
Proof.
  set (c := rstrip (lit "/") base_url).
  assert (A : api_url_of base_url
              = if endswith c api_suffix
                then c else c ++ lit "/products.json?limit=1000").
  { unfold api_url_of. fold c. destruct (endswith c api_suffix); reflexivity. }
  rewrite A. destruct (endswith c api_suffix) eqn:E.
  - unfold api_url_of. unfold c at 1 2 3, rstrip. rewrite rstrip_by_idem.
    fold (rstrip (lit "/") base_url). fold c. rewrite E. reflexivity.
  - assert (R : rstrip (lit "/") (c ++ lit "/products.json?limit=1000")
                = c ++ lit "/products.json?limit=1000").
    { change (lit "/products.json?limit=1000")
        with (lit "/products.json?limit=100" ++ [ch "0"]).
      rewrite app_assoc. apply rstrip_by_last. reflexivity. }
    unfold api_url_of. rewrite R.
    change (lit "/products.json?limit=1000") with ([ch "/"] ++ api_suffix).
    rewrite app_assoc, endswith_app. reflexivity.
Qed.

Section FetcherOutcomes.

Variable json_error_is_request_exception : bool.
Variable requests_get : str -> Z -> get_outcome.

Local Abbreviation fetch_shopify_products :=
  (fetch_shopify_products json_error_is_request_exception requests_get).
Local Abbreviation fetch_handler :=
  (fetch_handler json_error_is_request_exception).
Local Abbreviation is_RequestException :=
  (is_RequestException json_error_is_request_exception).

(** An exception raised inside the [try]: the first clause that
    catches it answers, and it leaves the fetcher when none does. *)
Lemma try_raise (e : exc) :
  try_except (lift (Raise e)) fetch_handler
  = if is_RequestException e
    then ([StError (lit "Error fetching data: " ++ exc_text e)], Ok (JList []))
    else if is_ValueError e
    then ([StError (lit "Invalid JSON response. Is this a Shopify site?")],
          Ok (JList []))
    else ([], Raise e).
Proof.
  unfold try_except, lift, App.fetch_handler.
  destruct (is_RequestException e); [reflexivity|].
  destruct (is_ValueError e); reflexivity.
Qed.

(** The fetcher, by what the endpoint does. *)
Lemma fetch_by_cases (base_url : str) :
  fetch_shopify_products base_url
  = match requests_get (api_url_of base_url) 250 with
    | Failed why text =>
        try_except (lift (Raise (mk_exc (failure_class why) text)))
          fetch_handler
    | Responded r =>
        if (400 <=? status_code r) && (status_code r <? 600)
        then ([StError (lit "Error fetching data: " ++ status_text r)],
              Ok (JList []))
        else
          match body r with
          | Decoded data =>
              try_except (lift (py_get data (lit "products") (JList [])))
                fetch_handler
          | Undecodable text =>
              try_except (lift (Raise (mk_exc JSONDecodeError text)))
                fetch_handler
          | Unreadable kind text =>
              try_except (lift (Raise (mk_exc kind text))) fetch_handler
          end
    end.
Proof.
  unfold App.fetch_shopify_products, and_then.
  destruct (requests_get (api_url_of base_url) 250) as [why text|r];
    [reflexivity|].
  rewrite raise_for_status_4xx_5xx.
  destruct ((400 <=? status_code r) && (status_code r <? 600)); [reflexivity|].
  unfold response_json. destruct (body r); reflexivity.
Qed.

Lemma try_get (data : json) :
  try_except (lift (py_get data (lit "products") (JList []))) fetch_handler
  = match data with
    | JDict fields =>
        ([], Ok match lookup (lit "products") fields with
                | Some products => products
                | None => JList []
                end)
    | _ => ([], Raise (mk_exc AttributeError
                         (lit "'" ++ type_name data
                            ++ lit "' object has no attribute 'get'")))
    end.
Proof.
  destruct data; try reflexivity.
  cbn [py_get]. destruct (lookup (lit "products") fields); reflexivity.
Qed.

(** X2: the fetcher raises in exactly three situations, and it has
    shown nothing when it does: [requests.get] raises an exception that
    is neither a [RequestException] nor a [ValueError];
    [response.json()] raises such an exception (a [RecursionError] on a
    body nested too deep); or the body decodes to something that is not
    an object, and the exception is the [AttributeError] of
    [data.get].  The last two need a status outside 400..599. *)
Theorem fetch_shopify_products_raises_exactly (base_url : str) (e : exc) :
  (snd (fetch_shopify_products base_url) = Raise e
   <-> (exists why text,
           requests_get (api_url_of base_url) 250 = Failed why text
           /\ e = mk_exc (failure_class why) text
           /\ uncaught json_error_is_request_exception e = true)
       \/ (exists r kind text,
              requests_get (api_url_of base_url) 250 = Responded r
              /\ (400 <=? status_code r) && (status_code r <? 600) = false
              /\ body r = Unreadable kind text
              /\ e = mk_exc kind text
              /\ uncaught json_error_is_request_exception e = true)
       \/ (exists r data,
              requests_get (api_url_of base_url) 250 = Responded r
              /\ (400 <=? status_code r) && (status_code r <? 600) = false
              /\ body r = Decoded data
              /\ is_dict data = false
              /\ e = mk_exc AttributeError
                       (lit "'" ++ type_name data
                          ++ lit "' object has no attribute 'get'")))
  /\ (snd (fetch_shopify_products base_url) = Raise e ->
      fst (fetch_shopify_products base_url) = []).
Proof.
  rewrite fetch_by_cases.
  destruct (requests_get (api_url_of base_url) 250) as [why text|r] eqn:G.
  - rewrite try_raise. set (e0 := mk_exc (failure_class why) text).
    split.
    + split.
      * destruct (is_RequestException e0) eqn:R;
          [|destruct (is_ValueError e0) eqn:V]; cbn [snd]; try discriminate.
        intros H. injection H as <-. left. exists why, text.
        split; [reflexivity|]. split; [reflexivity|].
        unfold uncaught. fold e0. rewrite R, V. reflexivity.
      * intros H.
        assert (E : e = e0 /\ negb (is_RequestException e0)
                              && negb (is_ValueError e0) = true).
        { destruct H as [(w & x & G' & E & U)|[(r & k & x & G' & _)|(r & d & G' & _)]];
            try discriminate G'.
          injection G' as <- <-. subst e. split; [reflexivity | exact U]. }
        destruct E as [-> U]. apply andb_true_iff in U as [U1 U2].
        apply negb_true_iff in U1. apply negb_true_iff in U2.
        rewrite U1, U2. reflexivity.
    + destruct (is_RequestException e0); [|destruct (is_ValueError e0)];
        cbn [fst snd]; try discriminate. reflexivity.
  - destruct ((400 <=? status_code r) && (status_code r <? 600)) eqn:S.
    + cbn [fst snd]. split; [split|]; try discriminate.
      intros [(w & x & G' & _)|[(r' & k & x & G' & S' & _)|(r' & d & G' & S' & _)]];
        try discriminate G'; injection G' as <-; congruence.
    + destruct (body r) as [data|text|kind text] eqn:B.
      * rewrite try_get. split.
        -- split.
           ++ destruct data; cbn [snd]; try discriminate;
                intros H; injection H as <-; right; right; exists r;
                eexists; (split; [reflexivity|]); (split; [exact S|]);
                (split; [exact B|]); split; reflexivity.
           ++ intros [(w & x & G' & _)|[(r' & k & x & G' & _ & B' & _)
                                       |(r' & d & G' & _ & B' & D & ->)]];
                try discriminate G'; injection G' as <-;
                rewrite B in B'; try discriminate B'.
              injection B' as <-. destruct data; try discriminate D; reflexivity.
        -- destruct data; cbn [fst snd]; try discriminate; reflexivity.
      * rewrite try_raise. unfold App.is_RequestException. cbn [exc_kind].
        assert (N : ~ ((exists w x, Responded r = Failed w x
                          /\ e = mk_exc (failure_class w) x
                          /\ uncaught json_error_is_request_exception e = true)
                       \/ (exists r' k x,
                              Responded r = Responded r'
                              /\ (400 <=? status_code r') && (status_code r' <? 600) = false
                              /\ body r' = Unreadable k x
                              /\ e = mk_exc k x
                              /\ uncaught json_error_is_request_exception e = true)
                       \/ (exists r' d,
                              Responded r = Responded r'
                              /\ (400 <=? status_code r') && (status_code r' <? 600) = false
                              /\ body r' = Decoded d
                              /\ is_dict d = false
                              /\ e = mk_exc AttributeError
                                       (lit "'" ++ type_name d
                                          ++ lit "' object has no attribute 'get'")))).
        { intros [(w & x & G' & _)|[(r' & k & x & G' & _ & B' & _)
                                   |(r' & d & G' & _ & B' & _)]];
            try discriminate G'; injection G' as <-;
            rewrite B in B'; discriminate B'. }
        destruct json_error_is_request_exception; cbn [fst snd];
          (split; [split; [discriminate | intros H; destruct (N H)]
                  | discriminate]).
      * rewrite try_raise. set (e0 := mk_exc kind text).
        split.
        -- split.
           ++ destruct (is_RequestException e0) eqn:R;
                [|destruct (is_ValueError e0) eqn:V]; cbn [snd]; try discriminate.
              intros H. injection H as <-. right; left. exists r, kind, text.
              split; [reflexivity|]. split; [exact S|]. split; [exact B|].
              split; [reflexivity|].
              unfold uncaught. fold e0. rewrite R, V. reflexivity.
           ++ intros H.
              assert (E : e = e0 /\ uncaught json_error_is_request_exception e0 = true).
              { destruct H as [(w & x & G' & _)|[(r' & k & x & G' & _ & B' & E & U)
                                                |(r' & d & G' & _ & B' & _)]];
                  try discriminate G'; injection G' as <-;
                  rewrite B in B'; try discriminate B'.
                injection B' as <- <-. subst e. split; [reflexivity | exact U]. }
              destruct E as [-> U]. unfold uncaught in U.
              apply andb_true_iff in U as [U1 U2].
              apply negb_true_iff in U1. apply negb_true_iff in U2.
              rewrite U1, U2. reflexivity.
        -- destruct (is_RequestException e0); [|destruct (is_ValueError e0)];
             cbn [fst snd]; try discriminate. reflexivity.
Qed.

Lemma first_text_is_not_second (text : str) :
  [StError (lit "Error fetching data: " ++ text)]
  <> [StError (lit "Invalid JSON response. Is this a Shopify site?")].
Proof.
  intros H. discriminate H.
Qed.

(** When an exception raised inside the [try] ends in the second
    clause's message. *)
Lemma raise_shows_second (e : exc) :
  fst (try_except (lift (Raise e)) fetch_handler)
  = [StError (lit "Invalid JSON response. Is this a Shopify site?")]
  <-> second_clause_only json_error_is_request_exception e = true.
Proof.
  rewrite try_raise. unfold second_clause_only.
  destruct (is_RequestException e); [|destruct (is_ValueError e)];
    cbn [fst negb andb]; split; intros H; try reflexivity; discriminate H.
Qed.

(** X3: the fetcher shows [Invalid JSON response. Is this a Shopify
    site?] in exactly three situations: [requests.get] raises a
    [ValueError] that is no [RequestException] (urllib3's
    [LocationParseError]); the body is not JSON and the decode error is
    no [RequestException] (requests before 2.27); or
    [response.json()] raises another [ValueError] that is no
    [RequestException] (an integer literal over the digit limit).  With
    requests 2.27 and later a body that is not JSON is reported with
    the first clause's [Error fetching data: ...] instead. *)
Theorem fetch_shopify_products_second_clause (base_url : str) :
  fst (fetch_shopify_products base_url)
  = [StError (lit "Invalid JSON response. Is this a Shopify site?")]
  <-> (exists why text,
          requests_get (api_url_of base_url) 250 = Failed why text
          /\ second_clause_only json_error_is_request_exception
               (mk_exc (failure_class why) text) = true)
      \/ (exists r text,
             requests_get (api_url_of base_url) 250 = Responded r
             /\ (400 <=? status_code r) && (status_code r <? 600) = false
             /\ body r = Undecodable text
             /\ json_error_is_request_exception = false)
      \/ (exists r kind text,
             requests_get (api_url_of base_url) 250 = Responded r
             /\ (400 <=? status_code r) && (status_code r <? 600) = false
             /\ body r = Unreadable kind text
             /\ second_clause_only json_error_is_request_exception
                  (mk_exc kind text) = true).
Proof.
  rewrite fetch_by_cases.
  destruct (requests_get (api_url_of base_url) 250) as [why text|r] eqn:G.
  - rewrite raise_shows_second. split.
    + intros H. left. exists why, text. split; [reflexivity | exact H].
    + intros [(w & x & G' & U)|[(r & x & G' & _)|(r & k & x & G' & _)]];
        try discriminate G'.
      injection G' as <- <-. exact U.
  - destruct ((400 <=? status_code r) && (status_code r <? 600)) eqn:S.
    + cbn [fst]. split.
      * intros H. destruct (first_text_is_not_second _ H).
      * intros [(w & x & G' & _)|[(r' & x & G' & S' & _)|(r' & k & x & G' & S' & _)]];
          try discriminate G'; injection G' as <-; congruence.
    + destruct (body r) as [data|text|kind text] eqn:B.
      * rewrite try_get. split.
        -- destruct data; cbn [fst]; discriminate.
        -- intros [(w & x & G' & _)|[(r' & x & G' & _ & B' & _)
                                    |(r' & k & x & G' & _ & B' & _)]];
             try discriminate G'; injection G' as <-;
             rewrite B in B'; discriminate B'.
      * rewrite raise_shows_second. unfold second_clause_only,
          App.is_RequestException, is_ValueError. cbn [exc_kind].
        rewrite andb_true_r, negb_true_iff. split.
        -- intros H. right; left. exists r, text. auto.
        -- intros [(w & x & G' & _)|[(r' & x & G' & _ & _ & F)
                                    |(r' & k & x & G' & _ & B' & _)]];
             try discriminate G'; injection G' as <-.
           ++ exact F.
           ++ rewrite B in B'. discriminate B'.
      * rewrite raise_shows_second. split.
        -- intros H. right; right. exists r, kind, text. auto.
        -- intros [(w & x & G' & _)|[(r' & x & G' & _ & B' & _)
                                    |(r' & k & x & G' & _ & B' & U)]];
             try discriminate G'; injection G' as <-;
             rewrite B in B'; try discriminate B'.
           injection B' as <- <-. exact U.
Qed.

End FetcherOutcomes.

(* ================================================================== *)
(** ** Further properties: the extractor *)
(* ================================================================== *)

Section ExtractorDomain.

Variable repr_nonstr : json -> str.

Local Abbreviation product_entry := (product_entry repr_nonstr).
Local Abbreviation extract_loop := (extract_loop repr_nonstr).
Local Abbreviation extract_images := (extract_images repr_nonstr).
Local Abbreviation described_entry := (described_entry repr_nonstr).

(** One turn of the loop returns exactly on the product records. *)
Lemma product_entry_returns (origin : str) (product : json) :
  returns (product_entry origin product) = is_product_record product.
Proof.
  destruct product as [| b | n | f | s | items | fields]; try reflexivity.
  unfold App.product_entry, and_then, py_get, is_product_record.
  destruct (lookup (lit "title") fields) as [title|];
    destruct (lookup (lit "handle") fields) as [handle|];
    destruct (lookup (lit "images") fields) as [images|];
    try reflexivity.
  all: destruct images as [| b | n | f | s | [|first rest] | d];
    try reflexivity;
    try (destruct (truthy _) eqn:T; reflexivity).
  all: try (destruct s; reflexivity); try (destruct d; reflexivity).
  all: destruct first; try reflexivity.
  all: cbn [truthy py_first]; destruct (lookup (lit "src") _) as [src|];
    [destruct (truthy src)|]; reflexivity.
Qed.

Lemma extract_loop_returns (origin : str) (products : list json) :
  forall images,
    returns (extract_loop origin products images)
    = forallb is_product_record products.
Proof.
  induction products as [|product rest IH]; intros images; [reflexivity|].
  cbn [App.extract_loop forallb].
  rewrite <- (product_entry_returns origin product).
  destruct (product_entry origin product) as [[entry|]|e];
    cbn [returns andb]; [apply IH | apply IH | reflexivity].
Qed.

(** X4: the extractor returns on a list exactly when every product in it
    is a product record: one product of another shape makes the whole
    call raise, whatever stands before it. *)
Theorem extract_images_returns_on_records (products : list json) (origin : str) :
  returns (extract_images (JList products) origin)
  = forallb is_product_record products.
Proof.
  unfold App.extract_images. cbn [py_iter and_then].
  apply extract_loop_returns.
Qed.

End ExtractorDomain.

Lemma startswith_app_app (a b c : str) :
  startswith (a ++ b ++ c) (a ++ b) = true.
Proof. rewrite app_assoc. apply startswith_app. Qed.

Section ExtractorEntries.

Variable repr_nonstr : json -> str.

Local Abbreviation product_entry := (product_entry repr_nonstr).
Local Abbreviation extract_loop := (extract_loop repr_nonstr).
Local Abbreviation extract_images := (extract_images repr_nonstr).
Local Abbreviation described_entry := (described_entry repr_nonstr).

Lemma product_entry_ok (origin : str) (product : json) (entry : image_entry) :
  product_entry origin product = Ok (Some entry) ->
  entry_ok origin entry = true.
Proof.
  unfold App.product_entry, and_then. intros H.
  destruct (py_get product (lit "title") _) as [title|]; [|discriminate].
  destruct (py_get product (lit "handle") _) as [handle|]; [|discriminate].
  destruct (py_get product (lit "images") _) as [images|]; [|discriminate].
  destruct (truthy images); [|discriminate].
  destruct (py_first images) as [first_img|]; [|discriminate].
  destruct (py_get first_img (lit "src") JNull) as [src|]; [|discriminate].
  destruct (truthy src) eqn:T; [|discriminate].
  injection H as <-. unfold entry_ok. rewrite T. cbn [andb].
  apply (startswith_app_app origin (lit "/products/")).
Qed.

Lemma extract_loop_ok (origin : str) (products : list json) :
  forall images result,
    forallb (entry_ok origin) images = true ->
    extract_loop origin products images = Ok result ->
    forallb (entry_ok origin) result = true.
Proof.
  induction products as [|product rest IH]; intros images result Hi H.
  - cbn in H. injection H as <-. exact Hi.
  - cbn [App.extract_loop] in H.
    destruct (product_entry origin product) as [[entry|]|e] eqn:P;
      [| apply (IH images result Hi H) | discriminate].
    apply (IH (images ++ [entry]) result); [|exact H].
    rewrite forallb_app, Hi. cbn [forallb andb].
    rewrite (product_entry_ok origin product entry P). reflexivity.
Qed.

(** X5: whatever the products are, every entry the extractor returns has an
    image source that counts as true (never empty, never [None]) and a
    link that starts with origin + [/products/]. *)
Theorem extract_images_entries_ok
  (products : json) (origin : str) (images : list image_entry) :
  extract_images products origin = Ok images ->
  forallb (entry_ok origin) images = true.
Proof.
  unfold App.extract_images, and_then.
  destruct (py_iter products) as [items|e]; [|discriminate].
  apply extract_loop_ok. reflexivity.
Qed.

(** X6: a [products] value that counts as true and is not a list -- a
    number, [true], a text, an object -- makes the extractor raise. *)
Theorem extract_images_raises_on_non_list (products : json) (origin : str) :
  truthy products = true ->
  is_list products = false ->
  exists e,
    extract_images products origin = Raise e
    /\ (exc_kind e = TypeError \/ exc_kind e = AttributeError).
Proof.
  intros T L.
  destruct products as [| b | n | f | s | items | fields];
    try discriminate T; try discriminate L.
  - eexists. split; [reflexivity | left; reflexivity].
  - eexists. split; [reflexivity | left; reflexivity].
  - eexists. split; [reflexivity | left; reflexivity].
  - destruct s as [|c s]; [discriminate T|].
    eexists. split; [reflexivity | right; reflexivity].
  - destruct fields as [|[k v] rest]; [discriminate T|].
    eexists. split; [reflexivity | right; reflexivity].
Qed.

(** X7: a product record without a [handle] whose first image can be used
    is linked to origin + [/products/], with nothing after the slash. *)
Theorem extract_images_missing_handle
  (before after : list json) (fields : list (str * json)) (src : json)
  (origin : str) :
  forallb is_product_record before = true ->
  forallb is_product_record after = true ->
  lookup (lit "handle") fields = None ->
  first_image_src fields = Some src ->
  extract_images (JList (before ++ JDict fields :: after)) origin
  = Ok (flat_map (described_entry origin) before
        ++ (src, title_of fields, origin ++ lit "/products/")
        :: flat_map (described_entry origin) after).
Proof.
  intros Rb Ra Hh Hs.
  assert (Rp : is_product_record (JDict fields) = true).
  { unfold first_image_src in Hs. unfold is_product_record.
    destruct (lookup (lit "images") fields) as [[| | | | |[|[] ?]|]|];
      try discriminate Hs. reflexivity. }
  unfold App.extract_images. cbn [py_iter and_then].
  rewrite extract_loop_described.
  - cbn [app]. rewrite flat_map_app. cbn [flat_map].
    rewrite described_entry_record, Hs. unfold handle_text. rewrite Hh.
    reflexivity.
  - rewrite forallb_app. cbn [forallb]. rewrite Rb, Rp, Ra. reflexivity.
Qed.

End ExtractorEntries.

(* ================================================================== *)
(** ** Further properties: the normalizer *)
(* ================================================================== *)

Lemma take_while_In (p : char -> bool) (s : str) (c : char) :
  In c (take_while p s) -> In c s.
Proof.
  induction s as [|x s IH]; simpl; [tauto|].
  destruct (p x); simpl; [|tauto]. intros [->|H]; auto.
Qed.

Lemma skipn_In {A} (n : nat) (l : list A) (x : A) :
  In x (skipn n l) -> In x l.
Proof.
  intros H. rewrite <- (firstn_skipn n l). apply in_or_app. right. exact H.
Qed.

Lemma strip_In (s : str) (c : char) : In c (strip s) -> In c s.
Proof.
  unfold strip, lstrip_by. intros H.
  apply rstrip_by_incl in H. apply drop_while_incl in H. exact H.
Qed.

Lemma host_text_In (r : str) (c : char) : In c (host_text r) -> In c r.
Proof.
  unfold host_text. intros H. apply take_while_In in H.
  apply filter_In in H. tauto.
Qed.

(** The host comes out of the input: every character of it stands in
    the input. *)
Lemma scheme_and_host_In (s : str) (c : char) :
  In c (snd (scheme_and_host s)) -> In c s.
Proof.
  unfold scheme_and_host.
  destruct (startswith (strip s) (lit "http://"));
    [|destruct (startswith (strip s) (lit "https://"))];
    cbn [snd]; intros H; apply host_text_In in H;
    try apply skipn_In in H; apply strip_In; exact H.
Qed.

Lemma drop_while_app_last (p : char -> bool) (w : str) (c : char) :
  p c = false -> exists v, drop_while p (w ++ [c]) = v ++ [c].
Proof.
  intros H. induction w as [|x w IH]; simpl.
  - rewrite H. exists []. reflexivity.
  - destruct (p x); [exact IH|]. exists (x :: w). reflexivity.
Qed.

(** Trimming twice is trimming once. *)
Lemma strip_idem (s : str) : strip (strip s) = strip s.
Proof.
  unfold strip, lstrip_by.
  set (t := drop_while isspace s).
  assert (L : drop_while isspace (rstrip_by isspace t) = rstrip_by isspace t).
  { assert (Ht : t = [] \/ exists c u, t = c :: u /\ isspace c = false).
    { unfold t. clear t. induction s as [|x s IH]; [left; reflexivity|].
      simpl. destruct (isspace x) eqn:E; [exact IH|].
      right. exists x, s. auto. }
    destruct Ht as [->|(c & u & -> & Hc)]; [reflexivity|].
    unfold rstrip_by. cbn [rev].
    destruct (drop_while_app_last isspace (rev u) c Hc) as [v ->].
    rewrite rev_app_distr. cbn [rev app]. simpl. rewrite Hc. reflexivity. }
  rewrite L. apply rstrip_by_idem.
Qed.

Section NormalizerFaults.

Variable nfkc : str -> str.
Variable check_bracketed_netloc : str -> option str.

Local Abbreviation netloc_fault := (netloc_fault nfkc check_bracketed_netloc).
Local Abbreviation clean_shopify_url := (clean_shopify_url nfkc check_bracketed_netloc).

Lemma netloc_fault_kind (netloc : str) (e : exc) :
  netloc_fault netloc = Some e -> exc_kind e = ValueError.
Proof.
  unfold App.netloc_fault, bracket_fault.
  destruct (_ || _).
  - intros H. injection H as <-. reflexivity.
  - destruct (_ && _).
    + destruct (check_bracketed_netloc netloc).
      * intros H. injection H as <-. reflexivity.
      * destruct (checknetloc nfkc netloc); [|discriminate].
        intros H. injection H as <-. reflexivity.
    + destruct (checknetloc nfkc netloc); [|discriminate].
      intros H. injection H as <-. reflexivity.
Qed.

(** X8: the normalizer raises nothing but [ValueError]. *)
Theorem clean_shopify_url_raises_only_value_error (s : str) (e : exc) :
  clean_shopify_url s = Raise e -> exc_kind e = ValueError.
Proof.
  rewrite clean_shopify_url_outcome.
  destruct (scheme_and_host s) as [scheme host].
  destruct (netloc_fault host) as [e'|] eqn:F; [|discriminate].
  intros H. injection H as <-. apply (netloc_fault_kind host e' F).
Qed.

(** X9: on a text of ASCII characters with no bracket in it the normalizer
    returns: the parser has nothing to reject. *)
Theorem clean_shopify_url_returns_on_plain_ascii (s : str) :
  forallb is_ascii s = true ->
  contains (ch "[") s = false ->
  contains (ch "]") s = false ->
  clean_shopify_url s
  = Ok (fst (scheme_and_host s) ++ lit "://" ++ snd (scheme_and_host s)).
Proof.
  intros Ha Hl Hr. rewrite clean_shopify_url_outcome.
  pose proof (scheme_and_host_In s) as I.
  destruct (scheme_and_host s) as [scheme host]. cbn [fst snd] in *.
  assert (A : forallb is_ascii host = true).
  { apply forallb_forall. intros c Hc. rewrite forallb_forall in Ha.
    apply Ha, I, Hc. }
  assert (B : forall b, contains b s = false -> contains b host = false).
  { intros b Hb. unfold contains in *.
    destruct (existsb (N.eqb b) host) eqn:E; [|reflexivity].
    apply existsb_exists in E as (x & Hx & Ex).
    assert (existsb (N.eqb b) s = true)
      by (apply existsb_exists; exists x; auto).
    congruence. }
  unfold App.netloc_fault, bracket_fault, checknetloc.
  rewrite (B _ Hl), (B _ Hr), A. cbn [andb orb negb].
  rewrite orb_true_r. reflexivity.
Qed.

(** X10: the origin the normalizer returns is [http] or [https], [://] and a
    host that holds none of [/], [?], [#], tab, carriage return and
    line feed: no path, no query and no fragment is left. *)
Theorem clean_shopify_url_origin_shape (s o : str) :
  clean_shopify_url s = Ok o ->
  exists scheme host,
    o = scheme ++ lit "://" ++ host
    /\ (scheme = lit "http" \/ scheme = lit "https")
    /\ forallb (fun c => host_char c && negb (contains c unsafe_url_bytes))
         host = true.
Proof.
  intros H.
  destruct (clean_shopify_url_ok nfkc check_bracketed_netloc s o H)
    as (scheme & r & _ & Hs & _ & ->).
  exists scheme, (host_text r). split; [reflexivity|]. split; [exact Hs|].
  apply forallb_forall. intros c Hc. apply andb_true_iff. split.
  - apply (host_text_chars r c Hc).
  - unfold host_text in Hc. apply take_while_In in Hc.
    apply filter_In in Hc. tauto.
Qed.

(** X11: whitespace around the input never matters: the normalizer does on a
    text what it does on the trimmed text. *)
Theorem clean_shopify_url_ignores_surrounding_whitespace (s : str) :
  clean_shopify_url (strip s) = clean_shopify_url s.
Proof.
  unfold App.clean_shopify_url, with_scheme. rewrite strip_idem. reflexivity.
Qed.

End NormalizerFaults.

(* ================================================================== *)
(** ** Further properties: the grid *)
(* ================================================================== *)

Lemma concat_batches {A} (l : list A) (c : Z) :
  0 < c -> List.concat (batches l c) = l.
Proof.
  intros Hc. rewrite (batches_as_firstn l c Hc), concat_batches_firstn.
  apply firstn_all2.
  apply (batch_count_bounds (List.length l) (Z.to_nat c)). lia.
Qed.

Lemma batch_length {A} (l : list A) (c : Z) (batch : list A) :
  0 < c -> In batch (batches l c) -> 0 < py_len batch <= c.
Proof.
  intros Hc Hb. rewrite (batches_as_firstn l c Hc) in Hb.
  apply in_map_iff in Hb as (k & <- & Hk). apply in_seq in Hk.
  unfold py_len. rewrite length_firstn, length_skipn.
  set (n := List.length l) in *. set (c' := Z.to_nat c) in *.
  assert (Hc' : (0 < c')%nat) by (unfold c'; lia).
  destruct (batch_count_bounds n c' Hc') as (B1 & B2 & B3).
  assert (Hn : (0 < n)%nat) by (destruct n; [rewrite B3 in Hk; lia | lia]).
  specialize (B2 Hn).
  assert (Hk1 : (k * c' <= (batch_count n c' - 1) * c')%nat)
    by (apply Nat.mul_le_mono_r; lia).
  unfold c' in *. lia.
Qed.

(** X12: for every positive step, inside the slider's range or not, the
    batches are the entries cut in order, none of them empty or longer
    than the step, and there are as many of them as the length over the
    step, rounded up. *)
Theorem batches_any_positive_step {A} (image_data : list A) (cols_count : Z) :
  0 < cols_count ->
  List.concat (batches image_data cols_count) = image_data
  /\ (forall batch, In batch (batches image_data cols_count) ->
                    0 < py_len batch <= cols_count)
  /\ py_len (batches image_data cols_count)
     = (py_len image_data + cols_count - 1) / cols_count.
Proof.
  intros Hc. split; [apply concat_batches; exact Hc|].
  split; [intros batch; apply batch_length; exact Hc|].
  unfold batches, py_range, py_len. rewrite !length_map, length_seq.
  unfold range_length. rewrite Z.sub_0_r.
  destruct (Z.ltb_spec 0 cols_count); [|lia].
  destruct (Z.ltb_spec 0 (Z.of_nat (List.length image_data))).
  - replace (Z.of_nat (List.length image_data) + cols_count - 1)
      with (Z.of_nat (List.length image_data) - 1 + 1 * cols_count) by lia.
    rewrite Z.div_add by lia.
    assert (0 <= (Z.of_nat (List.length image_data) - 1) / cols_count)
      by (apply Z.div_pos; lia).
    lia.
  - replace (Z.of_nat (List.length image_data)) with 0 by lia.
    rewrite Z.div_small by lia. reflexivity.
Qed.

(** X13: entries that fit into one row make one batch: the whole list. *)
Theorem batches_single_row {A} (image_data : list A) (cols_count : Z) :
  image_data <> [] ->
  py_len image_data <= cols_count ->
  batches image_data cols_count = [image_data].
Proof.
  intros Hne Hle.
  assert (Hn : (0 < List.length image_data)%nat)
    by (destruct image_data; [contradiction | cbn; lia]).
  unfold py_len in Hle.
  assert (Hc : 0 < cols_count) by lia.
  rewrite (batches_as_firstn image_data cols_count Hc).
  assert (Hc' : (0 < Z.to_nat cols_count)%nat) by lia.
  destruct (batch_count_bounds (List.length image_data) (Z.to_nat cols_count) Hc')
    as (B1 & B2 & _).
  specialize (B2 Hn).
  assert (M : batch_count (List.length image_data) (Z.to_nat cols_count) = 1%nat).
  { set (m := batch_count _ _) in *.
    destruct m as [|[|m]]; [cbn in B1; lia | reflexivity |].
    exfalso. replace (S (S m) - 1)%nat with (S m) in B2 by lia.
    cbn [Nat.mul] in B2. lia. }
  rewrite M. cbn [seq List.map Nat.mul skipn].
  rewrite firstn_all2 by lia. reflexivity.
Qed.

Lemma markdown_html_app (a b : list event) :
  markdown_html (a ++ b) = markdown_html a ++ markdown_html b.
Proof. unfold markdown_html. apply flat_map_app. Qed.

Section GridCells.

Variable repr_nonstr : json -> str.

Local Abbreviation cell_events := (cell_events repr_nonstr).
Local Abbreviation row_events := (row_events repr_nonstr).
Local Abbreviation entry_html := (entry_html repr_nonstr).
Local Abbreviation render_row := (render_row repr_nonstr).

Lemma cells_html (indices : list Z) (batch : list image_entry) :
  List.length indices = List.length batch ->
  markdown_html (flat_map cell_events (combine indices batch))
  = flat_map entry_html batch.
Proof.
  revert indices. induction batch as [|entry batch IH]; intros indices L.
  - destruct indices; reflexivity.
  - destruct indices as [|idx indices]; [discriminate L|].
    cbn [combine flat_map]. rewrite markdown_html_app, IH by (cbn in L; lia).
    destruct entry as [[img_url title] product_url]. reflexivity.
Qed.

Lemma row_html (cols_count : Z) (batch : list image_entry) :
  markdown_html (row_events cols_count batch) = flat_map entry_html batch.
Proof.
  unfold Reading.row_events, enumerate.
  change (markdown_html (StColumns cols_count :: ?l)) with (markdown_html l).
  apply cells_html. rewrite length_map, length_seq. reflexivity.
Qed.

Lemma rows_html (cols_count : Z) (rows : list (list image_entry)) :
  markdown_html (flat_map (row_events cols_count) rows)
  = flat_map entry_html (List.concat rows).
Proof.
  induction rows as [|row rows IH]; [reflexivity|].
  cbn [flat_map List.concat].
  rewrite markdown_html_app, flat_map_app, row_html, IH. reflexivity.
Qed.

Lemma rows_html_of_batches
  (image_data : list image_entry) (cols_count : Z) :
  0 < cols_count ->
  markdown_html (flat_map (row_events cols_count) (batches image_data cols_count))
  = flat_map entry_html image_data.
Proof.
  intros Hc. rewrite rows_html, (concat_batches image_data cols_count Hc).
  reflexivity.
Qed.

Lemma rows_within_row (image_data : list image_entry) (cols_count : Z) :
  0 < cols_count ->
  forallb (within_row cols_count)
    (flat_map (row_events cols_count) (batches image_data cols_count)) = true.
Proof.
  intros Hc. apply forallb_forall. intros ev Hev.
  apply in_flat_map in Hev as (batch & Hb & Hev).
  pose proof (batch_length image_data cols_count batch Hc Hb) as L.
  unfold Reading.row_events in Hev. destruct Hev as [<-|Hev].
  - cbn. apply Z.eqb_refl.
  - apply in_flat_map in Hev as ([idx [[img_url title] product_url]] & Hc' & Hev).
    unfold enumerate in Hc'. apply in_combine_l in Hc'.
    apply in_map_iff in Hc' as (k & <- & Hk). apply in_seq in Hk.
    unfold py_len in L.
    assert (W : (0 <=? Z.of_nat k) && (Z.of_nat k <? cols_count) = true).
    { apply andb_true_iff. split; [apply Z.leb_le | apply Z.ltb_lt]; lia. }
    cbn in Hev. destruct Hev as [<-|[<-|[]]]; exact W.
Qed.

Lemma entry_html_length (entries : list image_entry) :
  List.length (flat_map entry_html entries) = (2 * List.length entries)%nat.
Proof.
  induction entries as [|[[img_url title] product_url] rest IH]; [reflexivity|].
  cbn [flat_map Reading.row_events]. rewrite length_app, IH. cbn. lia.
Qed.

(** The trace of the grid loop of lines 95 to 109. *)
Lemma grid_loop_trace (image_data : list image_entry) (cols_count : Z) :
  for_each (batches image_data cols_count) (render_row cols_count)
  = (flat_map (row_events cols_count) (batches image_data cols_count), Ok tt).
Proof. apply for_each_shows. intros batch. apply render_row_shows. Qed.

(** X14: the grid loop shows every entry once and in the entries'
    order, and raises nothing: the markup of the cells it writes, read
    as it is written, is the title markup and the image markup of the
    first entry, then of the second, and so on. *)
Theorem grid_shows_every_entry_once
  (image_data : list image_entry) (cols_count : Z) :
  0 < cols_count ->
  snd (for_each (batches image_data cols_count) (render_row cols_count)) = Ok tt
  /\ markdown_html
       (fst (for_each (batches image_data cols_count) (render_row cols_count)))
     = flat_map entry_html image_data.
Proof.
  intros Hc. rewrite grid_loop_trace. cbn [fst snd].
  split; [reflexivity | apply rows_html_of_batches; exact Hc].
Qed.

(** X15: the grid loop writes two pieces of markup for each entry, and
    every one of them into a column the row has: each row opens
    exactly the column count, and the index of every cell written is
    at least 0 and below it, so [cols[idx]] is always there. *)
Theorem grid_cells_within_row
  (image_data : list image_entry) (cols_count : Z) :
  0 < cols_count ->
  forallb (within_row cols_count)
    (fst (for_each (batches image_data cols_count) (render_row cols_count)))
  = true
  /\ List.length
       (markdown_html
          (fst (for_each (batches image_data cols_count) (render_row cols_count))))
     = (2 * List.length image_data)%nat.
Proof.
  intros Hc. rewrite grid_loop_trace. cbn [fst].
  split; [apply rows_within_row; exact Hc|].
  rewrite (rows_html_of_batches image_data cols_count Hc).
  apply entry_html_length.
Qed.

End GridCells.

(* ================================================================== *)
(** ** Further properties: the page *)
(* ================================================================== *)

Section PageOutcomes.

Variable nfkc : str -> str.
Variable check_bracketed_netloc : str -> option str.
Variable repr_nonstr : json -> str.
Variable json_error_is_request_exception : bool.
Variable requests_get : str -> Z -> get_outcome.

Local Abbreviation clean_shopify_url :=
  (clean_shopify_url nfkc check_bracketed_netloc).
Local Abbreviation fetch_shopify_products :=
  (fetch_shopify_products json_error_is_request_exception requests_get).
Local Abbreviation described_entry := (described_entry repr_nonstr).
Local Abbreviation row_events := (row_events repr_nonstr).
Local Abbreviation main_block :=
  (main_block nfkc check_bracketed_netloc repr_nonstr
     json_error_is_request_exception requests_get).

(** What the fetcher returns on a response that is no HTTP error and
    whose body is an object. *)
Lemma fetch_object_body (base_url : str) (r : response)
  (fields : list (str * json)) :
  requests_get (api_url_of base_url) 250 = Responded r ->
  (400 <=? status_code r) && (status_code r <? 600) = false ->
  body r = Decoded (JDict fields) ->
  fetch_shopify_products base_url
  = ([], Ok match lookup (lit "products") fields with
            | Some products => products
            | None => JList []
            end).
Proof.
  intros G S B. unfold App.fetch_shopify_products, and_then.
  rewrite G, raise_for_status_4xx_5xx, S. unfold response_json. rewrite B.
  cbn [py_get]. destruct (lookup (lit "products") fields); reflexivity.
Qed.

Lemma truthy_url (url_input : str) :
  url_input <> [] -> truthy (JStr url_input) = true.
Proof. destruct url_input; [contradiction | reflexivity]. Qed.


(** X17: a fetch that fails puts two messages on the page, the
    fetcher's error and after it the warning that no products were
    found: the error is [Error fetching data: ...] when [requests.get]
    raises a [RequestException] or the status is 4xx or 5xx, and
    [Invalid JSON response. Is this a Shopify site?] when
    [requests.get] raises a [ValueError] that is no
    [RequestException]. *)
Theorem main_block_error_then_warning
  (url_input : str) (cols_count : Z) (cleaned_url : str) :
  url_input <> [] ->
  clean_shopify_url url_input = Ok cleaned_url ->
  (forall why text,
      requests_get (api_url_of cleaned_url) 250 = Failed why text ->
      is_RequestException json_error_is_request_exception
        (mk_exc (failure_class why) text) = true ->
      main_block url_input cols_count
      = ([StSpinner (lit "Fetching inventory from " ++ cleaned_url ++ lit " ...");
          StError (lit "Error fetching data: " ++ text);
          StWarning (lit "No products found. Ensure the URL is correct and the site is built on Shopify.")],
         Ok tt))
  /\ (forall why text,
         requests_get (api_url_of cleaned_url) 250 = Failed why text ->
         second_clause_only json_error_is_request_exception
           (mk_exc (failure_class why) text) = true ->
         main_block url_input cols_count
         = ([StSpinner (lit "Fetching inventory from " ++ cleaned_url ++ lit " ...");
             StError (lit "Invalid JSON response. Is this a Shopify site?");
             StWarning (lit "No products found. Ensure the URL is correct and the site is built on Shopify.")],
            Ok tt))
  /\ (forall r,
         requests_get (api_url_of cleaned_url) 250 = Responded r ->
         (400 <=? status_code r) && (status_code r <? 600) = true ->
         main_block url_input cols_count
         = ([StSpinner (lit "Fetching inventory from " ++ cleaned_url ++ lit " ...");
             StError (lit "Error fetching data: " ++ status_text r);
             StWarning (lit "No products found. Ensure the URL is correct and the site is built on Shopify.")],
            Ok tt)).
Proof.
  intros Hu Hclean. split; [|split].
  - intros why text G R.
    unfold App.main_block. rewrite (truthy_url url_input Hu), Hclean.
    cbv beta iota delta [bind lift show].
    unfold App.fetch_shopify_products, and_then. rewrite G.
    change (try_except (?x, ?y) ?h) with (try_except (lift y) h).
    rewrite try_raise, R. reflexivity.
  - intros why text G V. unfold second_clause_only in V.
    apply andb_true_iff in V as [R V]. apply negb_true_iff in R.
    unfold App.main_block. rewrite (truthy_url url_input Hu), Hclean.
    cbv beta iota delta [bind lift show].
    unfold App.fetch_shopify_products, and_then. rewrite G.
    change (try_except (?x, ?y) ?h) with (try_except (lift y) h).
    rewrite try_raise, R, V. reflexivity.
  - intros r G S.
    unfold App.main_block. rewrite (truthy_url url_input Hu), Hclean.
    cbv beta iota delta [bind lift show].
    unfold App.fetch_shopify_products, and_then.
    rewrite G, raise_for_status_4xx_5xx, S. reflexivity.
Qed.

(** X18: an input whose host has one bracket without the other makes the
    page raise [ValueError] before it shows anything and before any
    request is made. *)
Theorem main_block_raises_on_unmatched_bracket
  (url_input : str) (cols_count : Z) :
  url_input <> [] ->
  xorb (contains (ch "[") (snd (scheme_and_host url_input)))
       (contains (ch "]") (snd (scheme_and_host url_input))) = true ->
  main_block url_input cols_count
  = ([], Raise (mk_exc ValueError (lit "Invalid IPv6 URL"))).
Proof.
  intros Hu Hx.
  unfold App.main_block. rewrite (truthy_url url_input Hu).
  rewrite clean_shopify_url_outcome.
  destruct (scheme_and_host url_input) as [scheme host]. cbn [snd] in Hx.
  unfold netloc_fault, bracket_fault.
  destruct (contains (ch "[") host), (contains (ch "]") host);
    try discriminate Hx; reflexivity.
Qed.

(** X19: a body that decodes to something other than an object makes the
    page raise the fetcher's [AttributeError] right after the spinner. *)
Theorem main_block_raises_on_non_object_body
  (url_input : str) (cols_count : Z) (cleaned_url : str) (r : response)
  (data : json) :
  url_input <> [] ->
  clean_shopify_url url_input = Ok cleaned_url ->
  requests_get (api_url_of cleaned_url) 250 = Responded r ->
  (400 <=? status_code r) && (status_code r <? 600) = false ->
  body r = Decoded data ->
  is_dict data = false ->
  main_block url_input cols_count
  = ([StSpinner (lit "Fetching inventory from " ++ cleaned_url ++ lit " ...")],
     Raise (mk_exc AttributeError
              (lit "'" ++ type_name data ++ lit "' object has no attribute 'get'"))).
Proof.
  intros Hu Hclean G S B D.
  unfold App.main_block. rewrite (truthy_url url_input Hu), Hclean.
  cbv beta iota delta [bind lift show].
  unfold App.fetch_shopify_products, and_then.
  rewrite G, raise_for_status_4xx_5xx, S. unfold response_json. rewrite B.
  destruct data; try discriminate D; reflexivity.
Qed.

(** X20: one product of the catalog that is not a product record makes the
    page raise right after the spinner: the count, the slider and the
    cells of the other products are not shown. *)
Theorem main_block_raises_on_non_record
  (url_input : str) (cols_count : Z) (cleaned_url : str) (r : response)
  (fields : list (str * json)) (records : list json) :
  url_input <> [] ->
  clean_shopify_url url_input = Ok cleaned_url ->
  requests_get (api_url_of cleaned_url) 250 = Responded r ->
  (400 <=? status_code r) && (status_code r <? 600) = false ->
  body r = Decoded (JDict fields) ->
  lookup (lit "products") fields = Some (JList records) ->
  forallb is_product_record records = false ->
  exists e,
    main_block url_input cols_count
    = ([StSpinner (lit "Fetching inventory from " ++ cleaned_url ++ lit " ...")],
       Raise e).
Proof.
  intros Hu Hclean G S B Hl Hr.
  pose proof (fetch_object_body cleaned_url r fields G S B) as Hfetch.
  rewrite Hl in Hfetch.
  pose proof (extract_loop_returns repr_nonstr cleaned_url records []) as R.
  rewrite Hr in R.
  destruct (extract_loop repr_nonstr cleaned_url records []) as [images|e] eqn:X;
    [discriminate R|].
  exists e.
  unfold App.main_block. rewrite (truthy_url url_input Hu), Hclean.
  cbv beta iota delta [bind lift show]. rewrite Hfetch.
  assert (Tp : truthy (JList records) = true).
  { destruct records; [discriminate Hr | reflexivity]. }
  rewrite Tp. unfold App.extract_images. cbn [py_iter and_then].
  rewrite X. reflexivity.
Qed.

End PageOutcomes.

(* ================================================================== *)
(** ** The further properties on concrete inputs *)
(* ================================================================== *)

Lemma extract_images_entries_ok_witness :
  forallb (entry_ok (lit "https://myshop.com"))
    [(JStr (lit "https://cdn.example/a.png"), JStr (lit "Shirt"),
      lit "https://myshop.com/products/shirt")] = true.
Proof.
  exact (extract_images_entries_ok sample_repr (JList [shirt; bare_product])
           (lit "https://myshop.com") _ eq_refl).
Defined.

Lemma extract_images_raises_on_non_list_witness :
  exists e,
    extract_images sample_repr (JStr (lit "sold out")) (lit "https://myshop.com")
    = Raise e
    /\ (exc_kind e = TypeError \/ exc_kind e = AttributeError).
Proof.
  exact (extract_images_raises_on_non_list sample_repr (JStr (lit "sold out"))
           (lit "https://myshop.com") eq_refl eq_refl).
Defined.

Lemma extract_images_missing_handle_witness :
  extract_images sample_repr (JList [shirt; JDict poster_fields; bare_product])
    (lit "https://myshop.com")
  = Ok [(JStr (lit "https://cdn.example/a.png"), JStr (lit "Shirt"),
         lit "https://myshop.com/products/shirt");
        (JStr (lit "https://cdn.example/poster.png"), JStr (lit "Poster"),
         lit "https://myshop.com/products/")].
Proof.
  exact (extract_images_missing_handle sample_repr [shirt] [bare_product]
           poster_fields (JStr (lit "https://cdn.example/poster.png"))
           (lit "https://myshop.com") eq_refl eq_refl eq_refl eq_refl).
Defined.

Lemma clean_shopify_url_raises_only_value_error_witness :
  exc_kind (mk_exc ValueError (lit "Invalid IPv6 URL")) = ValueError.
Proof.
  exact (clean_shopify_url_raises_only_value_error no_normalization
           no_bracket_check (lit "[") _ eq_refl).
Defined.

Lemma clean_shopify_url_returns_on_plain_ascii_witness :
  clean_shopify_url no_normalization no_bracket_check
    (lit "  myshop.com/collections/all?page=2  ")
  = Ok (lit "https://myshop.com").
Proof.
  exact (clean_shopify_url_returns_on_plain_ascii no_normalization
           no_bracket_check (lit "  myshop.com/collections/all?page=2  ")
           eq_refl eq_refl eq_refl).
Defined.

Lemma clean_shopify_url_origin_shape_witness :
  exists scheme host,
    lit "http://example.com" = scheme ++ lit "://" ++ host
    /\ (scheme = lit "http" \/ scheme = lit "https")
    /\ forallb (fun c => host_char c && negb (contains c unsafe_url_bytes))
         host = true.
Proof.
  exact (clean_shopify_url_origin_shape no_normalization no_bracket_check
           (lit "http://example.com/some/path?x=1") (lit "http://example.com")
           eq_refl).
Defined.

Lemma batches_any_positive_step_witness :
  List.concat (batches [1; 2; 3; 4; 5; 6; 7] 3) = [1; 2; 3; 4; 5; 6; 7]
  /\ py_len (batches [1; 2; 3; 4; 5; 6; 7] 3) = 3.
Proof.
  destruct (batches_any_positive_step [1; 2; 3; 4; 5; 6; 7] 3 eq_refl)
    as (C & _ & N).
  split; [exact C | exact N].
Defined.

Lemma batches_single_row_witness :
  batches [1; 2; 3] 5 = [[1; 2; 3]].
Proof.
  exact (batches_single_row [1; 2; 3] 5 ltac:(discriminate) ltac:(discriminate)).
Defined.

Lemma grid_shows_every_entry_once_witness :
  markdown_html
    (fst (for_each
            (batches
               [(JStr (lit "a.png"), JStr (lit "A"), lit "/products/a");
                (JStr (lit "b.png"), JStr (lit "B"), lit "/products/b");
                (JStr (lit "c.png"), JStr (lit "C"), lit "/products/c")] 2)
            (render_row sample_repr 2)))
  = [title_markup sample_repr (JStr (lit "A"));
     image_markup sample_repr (JStr (lit "a.png")) (lit "/products/a");
     title_markup sample_repr (JStr (lit "B"));
     image_markup sample_repr (JStr (lit "b.png")) (lit "/products/b");
     title_markup sample_repr (JStr (lit "C"));
     image_markup sample_repr (JStr (lit "c.png")) (lit "/products/c")].
Proof.
  exact (proj2 (grid_shows_every_entry_once sample_repr
                  [(JStr (lit "a.png"), JStr (lit "A"), lit "/products/a");
                   (JStr (lit "b.png"), JStr (lit "B"), lit "/products/b");
                   (JStr (lit "c.png"), JStr (lit "C"), lit "/products/c")]
                  2 eq_refl)).
Defined.

Lemma grid_cells_within_row_witness :
  forallb (within_row 2)
    (fst (for_each
            (batches
               [(JStr (lit "a.png"), JStr (lit "A"), lit "/products/a");
                (JStr (lit "b.png"), JStr (lit "B"), lit "/products/b");
                (JStr (lit "c.png"), JStr (lit "C"), lit "/products/c")] 2)
            (render_row sample_repr 2)))
  = true
  /\ List.length
       (markdown_html
          (fst (for_each
                  (batches
                     [(JStr (lit "a.png"), JStr (lit "A"), lit "/products/a");
                      (JStr (lit "b.png"), JStr (lit "B"), lit "/products/b");
                      (JStr (lit "c.png"), JStr (lit "C"), lit "/products/c")] 2)
                  (render_row sample_repr 2))))
     = 6%nat.
Proof.
  exact (grid_cells_within_row sample_repr
           [(JStr (lit "a.png"), JStr (lit "A"), lit "/products/a");
            (JStr (lit "b.png"), JStr (lit "B"), lit "/products/b");
            (JStr (lit "c.png"), JStr (lit "C"), lit "/products/c")] 2 eq_refl).
Defined.


Lemma main_block_error_then_warning_witness :
  main_block no_normalization no_bracket_check sample_repr true times_out
    (lit "myshop.com") 5
  = ([StSpinner (lit "Fetching inventory from https://myshop.com ...");
      StError (lit "Error fetching data: Read timed out.");
      StWarning (lit "No products found. Ensure the URL is correct and the site is built on Shopify.")],
     Ok tt)
  /\ main_block no_normalization no_bracket_check sample_repr true
       cannot_parse_host (lit "a..b") 5
     = ([StSpinner (lit "Fetching inventory from https://a..b ...");
         StError (lit "Invalid JSON response. Is this a Shopify site?");
         StWarning (lit "No products found. Ensure the URL is correct and the site is built on Shopify.")],
        Ok tt).
Proof.
  split.
  - exact (proj1 (main_block_error_then_warning no_normalization no_bracket_check
                    sample_repr true times_out (lit "myshop.com") 5
                    (lit "https://myshop.com") ltac:(discriminate) eq_refl)
                 TimedOut (lit "Read timed out.") eq_refl eq_refl).
  - exact (proj1 (proj2 (main_block_error_then_warning no_normalization
                           no_bracket_check sample_repr true cannot_parse_host
                           (lit "a..b") 5 (lit "https://a..b")
                           ltac:(discriminate) eq_refl))
                 (Unwrapped LocationParseError)
                 (lit "Failed to parse: a..b") eq_refl eq_refl).
Defined.

Lemma main_block_raises_on_unmatched_bracket_witness :
  main_block no_normalization no_bracket_check sample_repr true times_out
    (lit "http://[::1/shop") 5
  = ([], Raise (mk_exc ValueError (lit "Invalid IPv6 URL"))).
Proof.
  exact (main_block_raises_on_unmatched_bracket no_normalization
           no_bracket_check sample_repr true times_out
           (lit "http://[::1/shop") 5 ltac:(discriminate) eq_refl).
Defined.

Lemma main_block_raises_on_non_object_body_witness :
  main_block no_normalization no_bracket_check sample_repr true
    (always (mk_response 200 [] (Decoded (JList [shirt])))) (lit "myshop.com") 5
  = ([StSpinner (lit "Fetching inventory from https://myshop.com ...")],
     Raise (mk_exc AttributeError (lit "'list' object has no attribute 'get'"))).
Proof.
  exact (main_block_raises_on_non_object_body no_normalization no_bracket_check
           sample_repr true
           (always (mk_response 200 [] (Decoded (JList [shirt]))))
           (lit "myshop.com") 5 (lit "https://myshop.com")
           (mk_response 200 [] (Decoded (JList [shirt]))) (JList [shirt])
           ltac:(discriminate) eq_refl eq_refl eq_refl eq_refl eq_refl).
Defined.

Lemma main_block_raises_on_non_record_witness :
  exists e,
    main_block no_normalization no_bracket_check sample_repr true
      (always (catalog_of [shirt; JInt 7])) (lit "myshop.com") 5
    = ([StSpinner (lit "Fetching inventory from https://myshop.com ...")],
       Raise e).
Proof.
  exact (main_block_raises_on_non_record no_normalization no_bracket_check
           sample_repr true (always (catalog_of [shirt; JInt 7]))
           (lit "myshop.com") 5 (lit "https://myshop.com")
           (catalog_of [shirt; JInt 7])
           [(lit "products", JList [shirt; JInt 7])] [shirt; JInt 7]
           ltac:(discriminate) eq_refl eq_refl eq_refl eq_refl eq_refl eq_refl).
Defined.
